(** * BuildStream artifact cache core: the [Artifact] class

    A shallow embedding of [buildstream/_artifact.py] together with the
    collaborators it calls (content-addressable store, virtual directory,
    reference index, YAML loader), and the properties of the artifact
    specification checked against it. *)

From stdpp Require Import gmap strings list fin_maps sorting.

Set Warnings "-register-all".
Open Scope string_scope.

(** ** Errors and results *)

(** The exceptions that reach the [Artifact] class.  [ArtifactError] is the
    one exception class the source names; the next four are the failure kinds
    of the error taxonomy; [RecursionError] is what the interpreter raises
    for a recursion that does not end. *)
Inductive Error :=
  | ArtifactError
  | NotFound
  | Malformed
  | IOFailed
  | SchemaMismatch
  | RecursionError.

Global Instance Error_eq_dec : EqDecision Error.
Proof. solve_decision. Defined.

Inductive result (A : Type) :=
  | Ok (a : A)
  | Raise (e : Error).
Arguments Ok {A} a.
Arguments Raise {A} e.

Global Instance result_ret : MRet result := @Ok.
Global Instance result_bind : MBind result := λ A B f r,
  match r with
  | Ok a => f a
  | Raise e => Raise e
  end.

(** ** Python values held in metadata documents *)

Inductive Node :=
  | NNone
  | NBool (b : bool)
  | NStr (s : string)
  | NList (l : list Node)
  | NDict (d : list (string * Node)).

(** A Python [dict] keeps its insertion order; it is held as an association
    list without repeated keys. *)
Definition dict := list (string * Node).

Fixpoint dict_get (d : dict) (key : string) : option Node :=
  match d with
  | [] => None
  | (k, v) :: d' => if decide (k = key) then Some v else dict_get d' key
  end.

(** [d[key] = v]: replaces the value in place, or appends a new key. *)
Fixpoint dict_set (d : dict) (key : string) (v : Node) : dict :=
  match d with
  | [] => [(key, v)]
  | (k, v0) :: d' =>
      if decide (k = key) then (k, v) :: d' else (k, v0) :: dict_set d' key v
  end.

(** [{f(e): g(e) for e in l}] *)
Definition dict_of_list (l : list (string * Node)) : dict :=
  foldl (λ d kv, dict_set d kv.1 kv.2) [] l.

(** *** Encoding of documents into trees, for decidable equality and
    counting *)

Fixpoint Node_enc (n : Node) : gen_tree (bool + string) :=
  match n with
  | NNone => GenNode 0 []
  | NBool b => GenLeaf (inl b)
  | NStr s => GenLeaf (inr s)
  | NList l => GenNode 1 (map Node_enc l)
  | NDict d => GenNode 2 (map (λ kv, GenNode 3 [GenLeaf (inr kv.1); Node_enc kv.2]) d)
  end.

Fixpoint Node_dec (t : gen_tree (bool + string)) : Node :=
  match t with
  | GenLeaf (inl b) => NBool b
  | GenLeaf (inr s) => NStr s
  | GenNode 1 l => NList (map Node_dec l)
  | GenNode 2 l =>
      NDict (map (λ t',
        match t' with
        | GenNode 3 [GenLeaf (inr k); v] => (k, Node_dec v)
        | _ => (EmptyString, NNone)
        end) l)
  | GenNode _ _ => NNone
  end.

Fixpoint Node_dec_enc (n : Node) : Node_dec (Node_enc n) = n.
Proof.
  destruct n as [| b | s | l | d]; simpl; try reflexivity.
  - f_equal. induction l as [|x l IH]; simpl; [reflexivity|].
    rewrite Node_dec_enc. by rewrite IH.
  - f_equal. induction d as [|[k v] d IH]; simpl; [reflexivity|].
    rewrite Node_dec_enc. by rewrite IH.
Qed.

Global Instance Node_enc_inj : Inj (=) (=) Node_enc.
Proof.
  intros x y H. rewrite <-(Node_dec_enc x), <-(Node_dec_enc y). by rewrite H.
Qed.

Global Instance Node_eq_dec : EqDecision Node.
Proof.
  intros x y. destruct (decide (Node_enc x = Node_enc y)) as [H|H].
  - left. by apply (inj Node_enc).
  - right. intros ->. by apply H.
Defined.

Global Instance Node_countable : Countable Node.
Proof. exact (inj_countable' Node_enc Node_dec Node_dec_enc). Defined.

(** [_yaml.node_sanitize]: plain values with the keys of every mapping in
    sorted order.

    Modelled from the spec: [_yaml.node_sanitize] is not part of the available
    sources; the specification describes it as the canonicalization of the
    key order of a document. *)
Definition key_le (x y : string * Node) : Prop := String.leb x.1 y.1 = true.

Global Instance key_le_dec : RelDecision key_le.
Proof. intros x y. unfold key_le. apply _. Defined.

Fixpoint node_sanitize (n : Node) : Node :=
  match n with
  | NList l => NList (map node_sanitize l)
  | NDict d => NDict (merge_sort key_le (map (λ kv, (kv.1, node_sanitize kv.2)) d))
  | _ => n
  end.

(** ** Content-addressable store *)

(** A digest: the hash of the serialized bytes and their length. *)
Definition Digest : Type := positive * N.

Definition size_bytes (d : Digest) : N := d.2.

(** A directory manifest entry.  A manifest maps each name to one entry:
    names are unique, and a [gmap] has one canonical form whatever the order
    in which the entries were added. *)
Inductive Entry :=
  | FileEntry (digest : Digest) (executable : bool)
  | DirEntry (digest : Digest)
  | SymlinkEntry (target : string).

Global Instance Entry_eq_dec : EqDecision Entry.
Proof. solve_decision. Defined.

Global Instance Entry_countable : Countable Entry.
Proof.
  refine (inj_countable'
    (λ e, match e with
          | FileEntry d x => inl (d, x)
          | DirEntry d => inr (inl d)
          | SymlinkEntry t => inr (inr t)
          end)
    (λ s, match s with
          | inl (d, x) => FileEntry d x
          | inr (inl d) => DirEntry d
          | inr (inr t) => SymlinkEntry t
          end) _).
  by intros [].
Defined.

Abbreviation Manifest := (gmap string Entry).

(** The bytes of a regular file.  The concrete syntax of YAML is outside the
    available sources: a file written by [_yaml.dump] is held as the document
    it denotes, any other file as its text. *)
Inductive Content :=
  | Text (s : string)
  | Document (n : Node).

Global Instance Content_eq_dec : EqDecision Content.
Proof. solve_decision. Defined.

Global Instance Content_countable : Countable Content.
Proof.
  refine (inj_countable'
    (λ c, match c with Text s => inl s | Document n => inr n end)
    (λ s, match s with inl s => Text s | inr n => Document n end) _).
  by intros [].
Defined.

(** What a digest addresses: the bytes of a file, or a serialized manifest. *)
Inductive Blob :=
  | BFile (c : Content)
  | BDir (m : Manifest).

Global Instance Blob_eq_dec : EqDecision Blob.
Proof. solve_decision. Defined.

Global Instance Blob_countable : Countable Blob.
Proof.
  refine (inj_countable'
    (λ b, match b with BFile c => inl c | BDir m => inr m end)
    (λ s, match s with inl c => BFile c | inr m => BDir m end) _).
  by intros [].
Defined.

(** An object file of the store: its bytes can be read, or reading it fails
    in the operating system. *)
Inductive Stored :=
  | Readable (b : Blob)
  | Unreadable.

(** The artifact cache of a context: the object store and the reference
    index. *)
Record ArtifactCache := mkArtifactCache {
  cas : gmap Digest Stored;
  refs : gmap string Digest;
}.

(** Entries of a manifest in the order of their names. *)
Definition entry_le (x y : string * Entry) : Prop := String.leb x.1 y.1 = true.

Global Instance entry_le_dec : RelDecision entry_le.
Proof. intros x y. unfold entry_le. apply _. Defined.

Definition entries (m : Manifest) : list (string * Entry) :=
  merge_sort entry_le (map_to_list m).

(** A path of the real filesystem, as its list of components, and the path
    of a regular file as its directory and its name. *)
Definition Path : Type := list string.
Definition FilePath : Type := Path * string.

(** Where [_yaml.load] and [os.path.exists] are pointed at: the object file
    of a digest, or a path under which the store holds nothing. *)
Inductive fs_path :=
  | ObjectPath (d : Digest)
  | NoObject.

(** A virtual directory opened on the store: its digest and its index. *)
Record VDir := mkVDir {
  vd_digest : Digest;
  vd_index : Manifest;
}.

(** A directory under construction, held in memory: the name of each child
    directory of the root with the index of that child. *)
Abbreviation AssembleDir := (gmap string Manifest).

(** The hash algorithm is a choice of the installation. *)
Class HashAlgorithm := digest_of : Blob → Digest.

(** Two points on which the available sources and the specification say
    nothing are left open, and every result below holds however they are
    settled: what [_objpath] does for a name that its directory does not
    list as a regular file (it may hand out a path or raise), and the
    string that [_yaml.node_get] hands back for a string it finds in a
    loaded document. *)
Class Collaborators := {
  objpath_unlisted : VDir → string → result fs_path;
  yaml_str : string → string;
}.

Section Store.

Context `{HA : HashAlgorithm} `{CO : Collaborators}.

(** *** Object store

    Modelled from the spec: the content-addressable store
    ([buildstream/_cas/cascache.py]) is not part of the available sources.
    [get_blob] answers [NotFound] for an absent digest, [Malformed] for
    bytes that do not hash to the digest asked for and [IOFailed] when the
    read fails; [get_manifest] moreover answers [Malformed] for bytes that
    are not a manifest; [put_blob] writes the bytes under their digest. *)
Definition get_blob (objects : gmap Digest Stored) (d : Digest) : result Blob :=
  match objects !! d with
  | None => Raise NotFound
  | Some Unreadable => Raise IOFailed
  | Some (Readable b) =>
      if decide (digest_of b = d) then Ok b else Raise Malformed
  end.

Definition get_manifest (objects : gmap Digest Stored) (d : Digest)
  : result Manifest :=
  b ← get_blob objects d;
  match b with
  | BDir m => Ok m
  | BFile _ => Raise Malformed
  end.

Definition put_blob (b : Blob) (objects : gmap Digest Stored)
  : gmap Digest Stored :=
  <[digest_of b := Readable b]> objects.

(** Presence of one blob; a miss is an answer, any other failure is not
    swallowed. *)
Definition blob_present (objects : gmap Digest Stored) (d : Digest)
  : result bool :=
  match get_blob objects d with
  | Ok _ => Ok true
  | Raise NotFound => Ok false
  | Raise e => Raise e
  end.

(** Modelled from the spec: [contains_directory(digest, with_files)]
    traverses the manifests below [digest] depth first and stops at the
    first miss; with [with_files] every file blob has to be there too;
    symbolic links are not followed.  The recursion is on the store, so it
    carries a bound on its depth, which is the number of objects of the
    store plus one: a descent through more manifests than the store holds
    passes twice through the same one and would not end; it ends in
    [RecursionError] here. *)
Fixpoint contains_directory_fuel (fuel : nat) (objects : gmap Digest Stored)
    (digest : Digest) (with_files : bool) : result bool :=
  match fuel with
  | O => Raise RecursionError
  | S fuel' =>
      match get_manifest objects digest with
      | Raise NotFound => Ok false
      | Raise e => Raise e
      | Ok m =>
          foldr (λ (ne : string * Entry) (rest : result bool),
                   here ← match ne.2 with
                          | FileEntry d _ =>
                              if with_files then blob_present objects d
                              else Ok true
                          | DirEntry d =>
                              contains_directory_fuel fuel' objects d with_files
                          | SymlinkEntry _ => Ok true
                          end;
                   if here : bool then rest else Ok false)
                (Ok true) (entries m)
      end
  end.

Definition contains_directory (objects : gmap Digest Stored)
    (digest : Digest) (with_files : bool) : result bool :=
  contains_directory_fuel (S (size objects)) objects digest with_files.

(** *** Virtual directory, reading side

    Modelled from the spec: [CasBasedDirectory]
    ([buildstream/storage/_casbaseddirectory.py]) is not part of the
    available sources.  Opening a directory on a digest reads its manifest;
    [descend] opens the named child directory; [_exists],
    [_get_child_digest] and [_objpath] consult the index of the directory
    they are called on. *)
Definition open_directory (objects : gmap Digest Stored) (d : Digest)
  : result VDir :=
  m ← get_manifest objects d;
  Ok (mkVDir d m).

Definition descend (objects : gmap Digest Stored) (v : VDir) (name : string)
  : result VDir :=
  match vd_index v !! name with
  | Some (DirEntry d) => open_directory objects d
  | _ => Raise NotFound
  end.

Definition _exists (v : VDir) (name : string) : bool :=
  bool_decide (is_Some (vd_index v !! name)).

Definition _get_child_digest (v : VDir) (name : string) : result Digest :=
  match vd_index v !! name with
  | Some (FileEntry d _) => Ok d
  | Some (DirEntry d) => Ok d
  | _ => Raise NotFound
  end.

Definition _get_digest (v : VDir) : Digest := vd_digest v.

(** [objpath(name) -> fs_path]: the path of the object file of the named
    regular file, whether or not the store holds that object; for a name
    that is no regular file of the directory, whatever [objpath_unlisted]
    stands for. *)
Definition _objpath (v : VDir) (name : string) : result fs_path :=
  match vd_index v !! name with
  | Some (FileEntry d _) => Ok (ObjectPath d)
  | _ => objpath_unlisted v name
  end.

(** [os.path.exists] on a path handed out by [_objpath]. *)
Definition os_path_exists (objects : gmap Digest Stored) (p : fs_path) : bool :=
  match p with
  | ObjectPath d => bool_decide (is_Some (objects !! d))
  | NoObject => false
  end.

(** *** Virtual directory, writing side

    A directory under construction is held in memory: the index of the root
    maps the name of each child directory to the index of that child, and a
    child handle returned by [descend(name, create=True)] is that name, so
    that what is imported through the handle is seen from the root.  The
    manifests are written to the store when the digest of the root is asked
    for. *)
Definition CasBasedDirectory : AssembleDir := ∅.

Definition descend_create (root : AssembleDir) (name : string) : AssembleDir :=
  match root !! name with
  | Some _ => root
  | None => <[name := ∅]> root
  end.

(** Modelled from the spec: [import_files(source)] with another virtual
    directory as its source; the entries of the source overwrite those of
    the same name, the others are left as they are. *)
Definition import_files_vdir (root : AssembleDir) (child : string)
    (source : VDir) : AssembleDir :=
  alter (λ index, vd_index source ∪ index) child root.

(** Modelled from the spec: [import_files(source)] with a directory of the
    real filesystem as its source; every regular file is written to the
    store and entered under its name. *)
Definition import_real_entries (files : gmap string Content) : Manifest :=
  (λ c, FileEntry (digest_of (BFile c)) false) <$> files.

Definition import_real_blobs (files : gmap string Content)
    (objects : gmap Digest Stored) : gmap Digest Stored :=
  map_fold (λ _ c acc, put_blob (BFile c) acc) objects files.

Definition root_manifest (root : AssembleDir) : Manifest :=
  (λ index, DirEntry (digest_of (BDir index))) <$> root.

(** Writing the manifests of a directory under construction: the children
    first, the root last. *)
Definition serialize (root : AssembleDir) (objects : gmap Digest Stored)
  : gmap Digest Stored :=
  put_blob (BDir (root_manifest root))
    (map_fold (λ _ index acc, put_blob (BDir index) acc) objects root).

(** Modelled from the spec: [get_size()] is the sum of the sizes of all
    manifests and of all file blobs referenced below a digest; the length of
    a blob is the one its digest records.  Bounded in depth like
    [contains_directory]. *)
Fixpoint tree_size (fuel : nat) (objects : gmap Digest Stored) (d : Digest)
  : result N :=
  match fuel with
  | O => Raise RecursionError
  | S fuel' =>
      m ← get_manifest objects d;
      foldr (λ (ne : string * Entry) (rest : result N),
               here ← match ne.2 with
                      | FileEntry f _ => Ok (size_bytes f)
                      | DirEntry sub => tree_size fuel' objects sub
                      | SymlinkEntry _ => Ok 0%N
                      end;
               total ← rest;
               Ok (here + total)%N)
            (Ok (size_bytes d)) (entries m)
  end.

(** ** The collaborators of an artifact *)

(** A build dependency, as far as [cache()] looks at it: [e.name],
    [e._get_cache_key()] and whether [e._get_workspace()] is a workspace. *)
Record BuildDep := mkBuildDep {
  dep_name : string;
  dep_cache_key : option string;
  dep_workspace : bool;
}.

Record Element := mkElement {
  project_name : string;
  name : string;
  _build_log_path : option FilePath;
  _get_workspace : bool;
  _cached : bool;
  _artifact_files_required : bool;
  dependencies : list BuildDep;          (* dependencies(Scope.BUILD) *)
}.

Record Context := mkContext {
  require_artifact_directories : bool;
  require_artifact_files : bool;
  get_log_filename : option FilePath;
}.

(** The fields of an [Artifact]; [self._artifacts] refers to the artifact
    cache shared with the context, which is part of the state below. *)
Record Artifact := mkArtifact {
  _element : Element;
  _context : Context;
  _cache_key : option string;
  _weak_cache_key : option string;
  _metadata_keys : option (string * string);
  _metadata_dependencies : option dict;
  _metadata_workspaced : option bool;
  _metadata_workspaced_dependencies : option (list Node);
}.

(** [Artifact.__init__] *)
Definition __init__ (element : Element) (context : Context)
    (strong_key weak_key : option string) : Artifact :=
  {| _element := element;
     _context := context;
     _cache_key := strong_key;
     _weak_cache_key := weak_key;
     _metadata_keys := None;
     _metadata_dependencies := None;
     _metadata_workspaced := None;
     _metadata_workspaced_dependencies := None |}.

(** ** State and effects *)

(** What a method call can read and change: the handle, the artifact cache,
    the directories of the real filesystem with the regular files of each,
    and the record of the files handed to [_yaml.load], latest first. *)
Record State := mkState {
  self : Artifact;
  artifacts : ArtifactCache;
  disk : gmap Path (gmap string Content);
  yaml_loads : list string;
}.

(** A method either returns or raises, and leaves a state in both cases. *)
Definition M (A : Type) : Type := State → result A * State.

Global Instance M_ret : MRet M := λ A a st, (Ok a, st).
Global Instance M_bind : MBind M := λ A B f m st,
  match m st with
  | (Ok a, st') => f a st'
  | (Raise e, st') => (Raise e, st')
  end.

Definition gets {A} (f : State → A) : M A := λ st, (Ok (f st), st).
Definition modify (f : State → State) : M unit := λ st, (Ok tt, f st).
Definition lift {A} (r : result A) : M A := λ st, (r, st).

(** [try: body  except exc: handler] *)
Definition try_except {A} (body : M A) (exc : Error) (handler : M A) : M A :=
  λ st,
    match body st with
    | (Raise e, st') =>
        if decide (e = exc) then handler st' else (Raise e, st')
    | r => r
    end.

Definition set_self (f : Artifact → Artifact) : State → State :=
  λ st, mkState (f (self st)) (artifacts st) (disk st) (yaml_loads st).
Definition set_cas (f : gmap Digest Stored → gmap Digest Stored)
  : State → State :=
  λ st, mkState (self st)
          (mkArtifactCache (f (cas (artifacts st))) (refs (artifacts st)))
          (disk st) (yaml_loads st).
Definition set_refs (f : gmap string Digest → gmap string Digest)
  : State → State :=
  λ st, mkState (self st)
          (mkArtifactCache (cas (artifacts st)) (f (refs (artifacts st))))
          (disk st) (yaml_loads st).
Definition set_disk
    (f : gmap Path (gmap string Content) → gmap Path (gmap string Content))
  : State → State :=
  λ st, mkState (self st) (artifacts st) (f (disk st)) (yaml_loads st).
Definition log_load (shortname : string) : State → State :=
  λ st, mkState (self st) (artifacts st) (disk st) (shortname :: yaml_loads st).

(** *** The real filesystem *)

(** [os.path.join] of a directory and the name of a subdirectory, and of a
    directory and the name of a regular file in it. *)
Definition os_path_join (dir : Path) (sub : string) : Path :=
  (dir ++ [sub])%list.
Definition os_path_join_file (dir : Path) (file : string) : FilePath :=
  (dir, file).

(** [os.mkdir]: fails when the directory is there already. *)
Definition os_mkdir (dir : Path) : M unit := λ st,
  match disk st !! dir with
  | Some _ => (Raise IOFailed, st)
  | None => (Ok tt, set_disk <[dir := ∅]> st)
  end.

Definition write_file (p : FilePath) (c : Content) : M unit := λ st,
  match disk st !! p.1 with
  | Some files => (Ok tt, set_disk <[p.1 := <[p.2 := c]> files]> st)
  | None => (Raise IOFailed, st)
  end.

Definition read_file (p : FilePath) : M Content := λ st,
  match disk st !! p.1 ≫= (.!! p.2) with
  | Some c => (Ok c, st)
  | None => (Raise IOFailed, st)
  end.

(** [shutil.copyfile(src, dst)] *)
Definition shutil_copyfile (src dst : FilePath) : M unit :=
  c ← read_file src;
  write_file dst c.

(** The regular files of a directory of the real filesystem. *)
Definition listdir (dir : Path) : M (gmap string Content) := λ st,
  match disk st !! dir with
  | Some files => (Ok files, st)
  | None => (Raise IOFailed, st)
  end.

(** *** YAML

    Modelled from the spec: the module [_yaml] is not part of the available
    sources.  [_yaml.dump] writes a document to a path of the real
    filesystem; [_yaml.load] parses the file at a path into a mapping and
    fails with [NotFound] when nothing is stored there and with
    [Malformed] when the bytes are no mapping; [_yaml.node_get] fetches a
    field of an expected type and fails with [SchemaMismatch] for a missing
    required field or a value of another type.  A file that [_yaml.dump]
    wrote is held as the document written to it; the string that
    [_yaml.node_get] makes of a string of the document is [yaml_str] of
    it. *)
Definition _yaml_dump (node : Node) (p : FilePath) : M unit :=
  write_file p (Document node).

Definition _yaml_load (p : fs_path) (shortname : string) : M dict :=
  modify (log_load shortname);;
  objects ← gets (λ st, cas (artifacts st));
  match p with
  | NoObject => lift (Raise NotFound)
  | ObjectPath d =>
      b ← lift (get_blob objects d);
      match b with
      | BFile (Document (NDict data)) => mret data
      | _ => lift (Raise Malformed)
      end
  end.

(** [node_get(node, bool, key)] *)
Definition node_get_bool (node : dict) (key : string) : result bool :=
  match dict_get node key with
  | Some (NBool b) => Ok b
  | _ => Raise SchemaMismatch
  end.

(** [node_get(node, str, key)] *)
Definition node_get_str (node : dict) (key : string) : result string :=
  match dict_get node key with
  | Some (NStr s) => Ok (yaml_str s)
  | _ => Raise SchemaMismatch
  end.

(** [node_get(node, str, key, default_value=None)] *)
Definition node_get_str_default_none (node : dict) (key : string)
  : result (option string) :=
  match dict_get node key with
  | None => Ok None
  | Some NNone => Ok None
  | Some (NStr s) => Ok (Some (yaml_str s))
  | Some _ => Raise SchemaMismatch
  end.

(** [node_get(node, list, key)] *)
Definition node_get_list (node : dict) (key : string) : result (list Node) :=
  match dict_get node key with
  | Some (NList l) => Ok l
  | _ => Raise SchemaMismatch
  end.

(** A Python string or [None] as a document value. *)
Definition py_str (s : option string) : Node :=
  match s with
  | Some s => NStr s
  | None => NNone
  end.

(** *** Reference index and artifact cache

    Modelled from the spec: [ArtifactCache] and [Element.get_artifact_name]
    are not part of the available sources.  A reference is
    [<project>/<element-name>/<cache-key>]; without a key there is no
    reference.  [get_artifact_directory] resolves the reference and opens
    the root directory, and raises [ArtifactError] when the reference or
    the manifest of the root is missing; [commit] writes the tree and binds
    every reference of the key list to its root. *)
Definition get_artifact_name (element : Element) (key : option string)
  : result string :=
  match key with
  | Some k => Ok (project_name element +:+ "/" +:+ name element +:+ "/" +:+ k)
  | None => Raise ArtifactError
  end.

Definition resolve (index : gmap string Digest) (ref : string) : result Digest :=
  match index !! ref with
  | Some d => Ok d
  | None => Raise NotFound
  end.

Definition get_artifact_directory (element : Element) (key : option string)
  : M VDir :=
  cache ← gets artifacts;
  ref ← lift (get_artifact_name element key);
  match resolve (refs cache) ref with
  | Raise NotFound => lift (Raise ArtifactError)
  | Raise e => lift (Raise e)
  | Ok digest =>
      match open_directory (cas cache) digest with
      | Raise NotFound => lift (Raise ArtifactError)
      | r => lift r
      end
  end.

(** [assemblevdir._get_digest()] *)
Definition assemble_get_digest (root : AssembleDir) : M Digest :=
  modify (set_cas (serialize root));;
  mret (digest_of (BDir (root_manifest root))).

(** [assemblevdir.get_size()] *)
Definition assemble_get_size (root : AssembleDir) : M N :=
  digest ← assemble_get_digest root;
  objects ← gets (λ st, cas (artifacts st));
  lift (tree_size (S (size objects)) objects digest).

(** [child.import_files(dir)] for a directory of the real filesystem *)
Definition import_files_real (root : AssembleDir) (child : string)
    (dir : Path) : M AssembleDir :=
  files ← listdir dir;
  modify (set_cas (import_real_blobs files));;
  mret (alter (λ index, import_real_entries files ∪ index) child root).

Fixpoint mapM_result {A B} (f : A → result B) (l : list A) : result (list B) :=
  match l with
  | [] => Ok []
  | x :: l' => y ← f x; ys ← mapM_result f l'; Ok (y :: ys)
  end.

Definition commit (element : Element) (content : AssembleDir)
    (keys : list (option string)) : M unit :=
  refnames ← lift (mapM_result (get_artifact_name element) keys);
  tree ← assemble_get_digest content;
  modify (set_refs (λ index, foldr (λ ref acc, <[ref := tree]> acc) index refnames)).

(** [utils._deduplicate]: the first occurrence of every item, in order.

    Modelled from the spec: [utils] is not part of the available sources;
    the key list is [[strong, weak]] with duplicates removed. *)
Fixpoint _deduplicate_from {A} `{EqDecision A} (seen l : list A) : list A :=
  match l with
  | [] => []
  | x :: l' =>
      if decide (x ∈ seen) then _deduplicate_from seen l'
      else x :: _deduplicate_from (x :: seen) l'
  end.

Definition _deduplicate {A} `{EqDecision A} (l : list A) : list A :=
  _deduplicate_from [] l.

(** ** The class [Artifact] *)

(** The truth value of a key: [None] and the empty string are false. *)
Definition truth (key : option string) : bool :=
  match key with
  | Some (String _ _) => true
  | _ => false
  end.

(** [return self._cache_key or self._weak_cache_key] *)
Definition get_extract_key (a : Artifact) : option string :=
  if truth (_cache_key a) then _cache_key a else _weak_cache_key a.

(** [_get_directory(key=None)] *)
Definition _get_directory (key : option string) : M VDir :=
  a ← gets self;
  let element := _element a in
  let key := match key with
             | None => get_extract_key a
             | Some _ => key
             end in
  get_artifact_directory element key.

(** [_get_subdirectory(subdir, key=None)] *)
Definition _get_subdirectory (subdir : string) (key : option string) : M VDir :=
  artifact_vdir ← _get_directory key;
  objects ← gets (λ st, cas (artifacts st));
  sub_vdir ← lift (descend objects artifact_vdir subdir);
  mret sub_vdir.

Definition get_files : M VDir := _get_subdirectory "files" None.

Definition get_buildtree : M VDir := _get_subdirectory "buildtree" None.

Definition set_build_log_path (p : FilePath) (a : Artifact) : Artifact :=
  let e := _element a in
  mkArtifact
    (mkElement (project_name e) (name e) (Some p) (_get_workspace e)
       (_cached e) (_artifact_files_required e) (dependencies e))
    (_context a) (_cache_key a) (_weak_cache_key a) (_metadata_keys a)
    (_metadata_dependencies a) (_metadata_workspaced a)
    (_metadata_workspaced_dependencies a).

(** [cache(rootdir, sandbox_build_dir, collectvdir, buildresult,
    publicdata)].  A directory object is true in a condition, so that
    [if sandbox_build_dir:] asks whether one was given, as
    [if collectvdir is not None:] does. *)
Definition cache (rootdir : Path) (sandbox_build_dir collectvdir : option VDir)
    (buildresult : bool * option string * option string) (publicdata : dict)
  : M N :=
  a ← gets self;
  let context := _context a in

  let assemblevdir := CasBasedDirectory in
  let assemblevdir := descend_create assemblevdir "logs" in
  let assemblevdir := descend_create assemblevdir "meta" in

  (* Create artifact directory structure *)
  let assembledir := os_path_join rootdir "artifact" in
  let logsdir := os_path_join assembledir "logs" in
  let metadir := os_path_join assembledir "meta" in
  os_mkdir assembledir;;
  os_mkdir logsdir;;
  os_mkdir metadir;;

  let assemblevdir :=
    match collectvdir with
    | Some source =>
        import_files_vdir (descend_create assemblevdir "files") "files" source
    | None => assemblevdir
    end in

  let assemblevdir :=
    match sandbox_build_dir with
    | Some source =>
        import_files_vdir (descend_create assemblevdir "buildtree")
          "buildtree" source
    | None => assemblevdir
    end in

  (* Copy build log *)
  let log_filename := get_log_filename context in
  let build_log_path := os_path_join_file logsdir "build.log" in
  modify (set_self (set_build_log_path build_log_path));;
  match log_filename with
  | Some source => shutil_copyfile source build_log_path
  | None => mret tt
  end;;
  element ← gets (λ st, _element (self st));

  (* Store public data *)
  _yaml_dump (node_sanitize (NDict publicdata))
    (os_path_join_file metadir "public.yaml");;

  (* Store result *)
  let build_result_dict :=
    [("success", NBool buildresult.1.1);
     ("description", py_str buildresult.1.2)] in
  let build_result_dict :=
    match buildresult.2 with
    | Some detail => dict_set build_result_dict "detail" (NStr detail)
    | None => build_result_dict
    end in
  _yaml_dump (NDict build_result_dict)
    (os_path_join_file metadir "build-result.yaml");;

  (* Store keys.yaml *)
  _yaml_dump
    (node_sanitize (NDict [("strong", py_str (_cache_key a));
                           ("weak", py_str (_weak_cache_key a))]))
    (os_path_join_file metadir "keys.yaml");;

  (* Store dependencies.yaml *)
  _yaml_dump
    (node_sanitize (NDict (dict_of_list
       (map (λ e, (dep_name e, py_str (dep_cache_key e)))
            (dependencies element)))))
    (os_path_join_file metadir "dependencies.yaml");;

  (* Store workspaced.yaml *)
  _yaml_dump
    (node_sanitize (NDict [("workspaced", NBool (_get_workspace element))]))
    (os_path_join_file metadir "workspaced.yaml");;

  (* Store workspaced-dependencies.yaml *)
  _yaml_dump
    (node_sanitize (NDict [("workspaced-dependencies",
       NList (map (λ e, NStr (dep_name e))
                  (filter (λ e, dep_workspace e = true) (dependencies element))))]))
    (os_path_join_file metadir "workspaced-dependencies.yaml");;

  assemblevdir ← import_files_real assemblevdir "meta" metadir;
  assemblevdir ← import_files_real assemblevdir "logs" logsdir;

  artifact_size ← assemble_get_size assemblevdir;
  let keys := _deduplicate [_cache_key a; _weak_cache_key a] in
  commit element assemblevdir keys;;

  mret artifact_size.

(** [buildtree_exists()] *)
Definition buildtree_exists : M bool :=
  artifact_vdir ← _get_directory None;
  mret (_exists artifact_vdir "buildtree").

(** [load_public_data()] *)
Definition load_public_data : M dict :=
  meta_vdir ← _get_subdirectory "meta" None;
  meta_file ← lift (_objpath meta_vdir "public.yaml");
  data ← _yaml_load meta_file "public.yaml";
  mret data.

(** [load_build_result()] *)
Definition load_build_result : M (bool * option string * option string) :=
  meta_vdir ← _get_subdirectory "meta" None;
  meta_file ← lift (_objpath meta_vdir "build-result.yaml");
  objects ← gets (λ st, cas (artifacts st));
  if negb (os_path_exists objects meta_file) then
    let build_result := (true, Some "succeeded", None) in
    mret build_result
  else
    data ← _yaml_load meta_file "build-result.yaml";
    success ← lift (node_get_bool data "success");
    description ← lift (node_get_str_default_none data "description");
    detail ← lift (node_get_str_default_none data "detail");
    let build_result := (success, description, detail) in
    mret build_result.

Definition set_metadata_keys (v : string * string) (a : Artifact) : Artifact :=
  mkArtifact (_element a) (_context a) (_cache_key a) (_weak_cache_key a)
    (Some v) (_metadata_dependencies a) (_metadata_workspaced a)
    (_metadata_workspaced_dependencies a).
Definition set_metadata_dependencies (v : dict) (a : Artifact) : Artifact :=
  mkArtifact (_element a) (_context a) (_cache_key a) (_weak_cache_key a)
    (_metadata_keys a) (Some v) (_metadata_workspaced a)
    (_metadata_workspaced_dependencies a).
Definition set_metadata_workspaced (v : bool) (a : Artifact) : Artifact :=
  mkArtifact (_element a) (_context a) (_cache_key a) (_weak_cache_key a)
    (_metadata_keys a) (_metadata_dependencies a) (Some v)
    (_metadata_workspaced_dependencies a).
Definition set_metadata_workspaced_dependencies (v : list Node) (a : Artifact)
  : Artifact :=
  mkArtifact (_element a) (_context a) (_cache_key a) (_weak_cache_key a)
    (_metadata_keys a) (_metadata_dependencies a) (_metadata_workspaced a)
    (Some v).

(** [get_metadata_keys()] *)
Definition get_metadata_keys : M (string * string) :=
  a ← gets self;
  match _metadata_keys a with
  | Some keys => mret keys
  | None =>
      (* Extract the metadata dir *)
      meta_vdir ← _get_subdirectory "meta" None;
      (* Parse the expensive yaml now and cache the result *)
      meta_file ← lift (_objpath meta_vdir "keys.yaml");
      meta ← _yaml_load meta_file "keys.yaml";
      strong_key ← lift (node_get_str meta "strong");
      weak_key ← lift (node_get_str meta "weak");
      modify (set_self (set_metadata_keys (strong_key, weak_key)));;
      mret (strong_key, weak_key)
  end.

(** [get_metadata_dependencies()] *)
Definition get_metadata_dependencies : M dict :=
  a ← gets self;
  match _metadata_dependencies a with
  | Some deps => mret deps
  | None =>
      meta_vdir ← _get_subdirectory "meta" None;
      meta_file ← lift (_objpath meta_vdir "dependencies.yaml");
      meta ← _yaml_load meta_file "dependencies.yaml";
      modify (set_self (set_metadata_dependencies meta));;
      mret meta
  end.

(** [get_metadata_workspaced()] *)
Definition get_metadata_workspaced : M bool :=
  a ← gets self;
  match _metadata_workspaced a with
  | Some workspaced => mret workspaced
  | None =>
      meta_vdir ← _get_subdirectory "meta" None;
      meta_file ← lift (_objpath meta_vdir "workspaced.yaml");
      meta ← _yaml_load meta_file "workspaced.yaml";
      workspaced ← lift (node_get_bool meta "workspaced");
      modify (set_self (set_metadata_workspaced workspaced));;
      mret workspaced
  end.

(** [get_metadata_workspaced_dependencies()] *)
Definition get_metadata_workspaced_dependencies : M (list Node) :=
  a ← gets self;
  match _metadata_workspaced_dependencies a with
  | Some deps => mret deps
  | None =>
      meta_vdir ← _get_subdirectory "meta" None;
      meta_file ← lift (_objpath meta_vdir "workspaced-dependencies.yaml");
      meta ← _yaml_load meta_file "workspaced-dependencies.yaml";
      deps ← lift (node_get_list meta "workspaced-dependencies");
      let deps := map node_sanitize deps in
      modify (set_self (set_metadata_workspaced_dependencies deps));;
      mret deps
  end.

(** [cached()] *)
Definition cached : M bool :=
  a ← gets self;
  let context := _context a in
  found ← try_except (vdir ← _get_directory None; mret (Some vdir))
             ArtifactError
             (* Either ref or top-level artifact directory missing *)
             (mret None);
  match found with
  | None => mret false
  | Some vdir =>
      objects ← gets (λ st, cas (artifacts st));
      (* Check whether all metadata is available *)
      metadigest ← lift (_get_child_digest vdir "meta");
      meta_there ← lift (contains_directory objects metadigest true);
      if negb meta_there then mret false
      else
        (* Additional checks only relevant if artifact was created with
           'files' subdirectory *)
        if _exists vdir "files" then
          (* Determine whether directories are required *)
          let require_directories := require_artifact_directories context in
          (* Determine whether file contents are required as well *)
          let require_files :=
            require_artifact_files context
            || _artifact_files_required (_element a) in
          filesdigest ← lift (_get_child_digest vdir "files");
          (* Check whether 'files' subdirectory is available, with or
             without file contents *)
          if require_directories then
            files_there ← lift (contains_directory objects filesdigest require_files);
            if negb files_there then mret false else mret true
          else mret true
        else mret true
  end.

(** [cached_logs()] *)
Definition cached_logs : M bool :=
  a ← gets self;
  if negb (_cached (_element a)) then mret false
  else
    log_vdir ← _get_subdirectory "logs" None;
    let logsdigest := _get_digest log_vdir in
    objects ← gets (λ st, cas (artifacts st));
    lift (contains_directory objects logsdigest true).

End Store.

(** ** A concrete installation, for running the model *)

Module Examples.

(** A collision-free hash: the code of a blob among all blobs. *)
Definition example_digest : HashAlgorithm := λ b, (encode b, 0%N).

Definition elt : Element :=
  mkElement "proj" "hello.bst" None false true false
    [mkBuildDep "base.bst" (Some "cccc") false;
     mkBuildDep "lib.bst" (Some "dddd") true].

Definition ctx : Context :=
  mkContext true true (Some (["var"; "log"], "hello.log")).

Definition log_disk : gmap Path (gmap string Content) :=
  {[ ["var"; "log"] := {[ "hello.log" := Text "done" ]} ]}.

(** A fresh handle on an empty cache. *)
Definition st0 : State :=
  mkState (__init__ elt ctx (Some "aaaa") (Some "bbbb"))
    (mkArtifactCache ∅ ∅) log_disk [].

Definition hello_blob : Blob := BFile (Text "hello").
Definition hello_index : Manifest :=
  {[ "hello" := FileEntry (example_digest hello_blob) false ]}.
Definition hello_vdir : VDir :=
  mkVDir (example_digest (BDir hello_index)) hello_index.

(** The inputs of a commit of one file [hello], and the state after it. *)
Definition st_before : State :=
  set_cas (put_blob (HA := example_digest) hello_blob) st0.
Definition example_result : bool * option string * option string :=
  (true, Some "succeeded", None).
Definition example_public : dict := [("bst", NDict [("x", NStr "y")])].

Definition st_committed : State :=
  (cache (HA := example_digest) ["tmp"] None (Some hello_vdir) example_result
     example_public st_before).2.

(** The same artifact, seen from an element that is not cached. *)
Definition uncached (a : Artifact) : Artifact :=
  mkArtifact
    (mkElement "proj" "hello.bst" (_build_log_path (_element a)) false false
       false (dependencies (_element a)))
    (_context a) (_cache_key a) (_weak_cache_key a) (_metadata_keys a)
    (_metadata_dependencies a) (_metadata_workspaced a)
    (_metadata_workspaced_dependencies a).
Definition st_uncached : State := set_self uncached st_committed.

(** An artifact from before build results were recorded: its [meta/] has
    [keys.yaml] only. *)
Definition old_keys : Blob :=
  BFile (Document (NDict [("strong", NStr "aaaa"); ("weak", NStr "bbbb")])).
Definition old_meta : Manifest :=
  {[ "keys.yaml" := FileEntry (example_digest old_keys) false ]}.
Definition old_root : Manifest :=
  {[ "meta" := DirEntry (example_digest (BDir old_meta)) ]}.
Definition st_old : State :=
  mkState (__init__ elt ctx (Some "aaaa") (Some "bbbb"))
    (mkArtifactCache
       (put_blob (HA := example_digest) (BDir old_root)
          (put_blob (HA := example_digest) (BDir old_meta)
             (put_blob (HA := example_digest) old_keys ∅)))
       {[ "proj/hello.bst/aaaa" := example_digest (BDir old_root) ]})
    log_disk [].

(** An artifact of a failed build, with its result on record. *)
Definition failed_result : Blob :=
  BFile (Document (NDict [("success", NBool false);
                          ("description", NStr "failed")])).
Definition failed_meta : Manifest :=
  {[ "build-result.yaml" := FileEntry (example_digest failed_result) false ]}.
Definition failed_root : Manifest :=
  {[ "meta" := DirEntry (example_digest (BDir failed_meta)) ]}.
Definition st_failed : State :=
  mkState (__init__ elt ctx (Some "aaaa") (Some "bbbb"))
    (mkArtifactCache
       (put_blob (HA := example_digest) (BDir failed_root)
          (put_blob (HA := example_digest) (BDir failed_meta)
             (put_blob (HA := example_digest) failed_result ∅)))
       {[ "proj/hello.bst/aaaa" := example_digest (BDir failed_root) ]})
    log_disk [].

(** A reference bound to an object whose bytes do not hash to its digest,
    and one bound to an object that cannot be read. *)
Definition bad_digest : Digest := (1%positive, 0%N).
Definition st_corrupt : State :=
  mkState (__init__ elt ctx (Some "aaaa") (Some "bbbb"))
    (mkArtifactCache {[ bad_digest := Readable hello_blob ]}
       {[ "proj/hello.bst/aaaa" := bad_digest ]})
    log_disk [].
Definition st_unreadable : State :=
  mkState (__init__ elt ctx (Some "aaaa") (Some "bbbb"))
    (mkArtifactCache {[ bad_digest := Unreadable ]}
       {[ "proj/hello.bst/aaaa" := bad_digest ]})
    log_disk [].

(** A handle whose strong key is the empty string. *)
Definition empty_strong : Artifact :=
  __init__ elt ctx (Some EmptyString) (Some "bbbb").

(** The committed artifact after the blob of [hello] has been removed from
    the store, and a state under another materialization policy. *)
Definition st_partial : State :=
  set_cas (delete (example_digest hello_blob)) st_committed.

Definition with_policy (require_directories require_files : bool) (a : Artifact)
  : Artifact :=
  mkArtifact (_element a)
    (mkContext require_directories require_files (get_log_filename (_context a)))
    (_cache_key a) (_weak_cache_key a) (_metadata_keys a)
    (_metadata_dependencies a) (_metadata_workspaced a)
    (_metadata_workspaced_dependencies a).

(** [contains_directory] on the root of the artifact of a handle. *)
Definition root_contains (st : State) (with_files : bool) : result bool :=
  match (_get_directory (HA := example_digest) None st).1 with
  | Ok root =>
      contains_directory (HA := example_digest) (cas (artifacts st))
        (vd_digest root) with_files
  | Raise e => Raise e
  end.

(** Whether two keys of a handle resolve to one root. *)
Definition same_root (st : State) (key1 key2 : string) : bool :=
  match (_get_directory (HA := example_digest) (Some key1) st).1,
        (_get_directory (HA := example_digest) (Some key2) st).1 with
  | Ok root1, Ok root2 => bool_decide (vd_digest root1 = vd_digest root2)
  | _, _ => false
  end.

(** A state whose context names a build log that is not there, and one
    whose root directory has a directory [artifact] already. *)
Definition st_nolog : State :=
  mkState (__init__ elt ctx (Some "aaaa") (Some "bbbb")) (mkArtifactCache ∅ ∅)
    ∅ [].
Definition st_taken : State :=
  mkState (__init__ elt ctx (Some "aaaa") (Some "bbbb")) (mkArtifactCache ∅ ∅)
    (<[ ["tmp"; "artifact"] := ∅ ]> log_disk) [].

(** The state after a commit without files and without build tree. *)
Definition st_plain : State :=
  (cache (HA := example_digest) ["tmp"] None None example_result
     example_public st0).2.

(** An artifact whose build result has the field [success] and no other. *)
Definition bare_result : Blob :=
  BFile (Document (NDict [("success", NBool true)])).
Definition bare_meta : Manifest :=
  {[ "build-result.yaml" := FileEntry (example_digest bare_result) false ]}.
Definition bare_root : Manifest :=
  {[ "meta" := DirEntry (example_digest (BDir bare_meta)) ]}.
Definition st_bare : State :=
  mkState (__init__ elt ctx (Some "aaaa") (Some "bbbb"))
    (mkArtifactCache
       (put_blob (HA := example_digest) (BDir bare_root)
          (put_blob (HA := example_digest) (BDir bare_meta)
             (put_blob (HA := example_digest) bare_result ∅)))
       {[ "proj/hello.bst/aaaa" := example_digest (BDir bare_root) ]})
    log_disk [].

(** The artifact of the failed build after the object of its build result
    has gone from the local store: [meta/] still lists the file. *)
Definition st_result_gone : State :=
  set_cas (delete (example_digest failed_result)) st_failed.

(** An artifact bound under the strong key of the handle whose [keys.yaml]
    records another weak key than the handle has. *)
Definition stale_keys : Blob :=
  BFile (Document (NDict [("strong", NStr "aaaa"); ("weak", NStr "cccc")])).
Definition stale_meta : Manifest :=
  {[ "keys.yaml" := FileEntry (example_digest stale_keys) false ]}.
Definition stale_root : Manifest :=
  {[ "meta" := DirEntry (example_digest (BDir stale_meta)) ]}.
Definition st_stale : State :=
  mkState (__init__ elt ctx (Some "aaaa") (Some "bbbb"))
    (mkArtifactCache
       (put_blob (HA := example_digest) (BDir stale_root)
          (put_blob (HA := example_digest) (BDir stale_meta)
             (put_blob (HA := example_digest) stale_keys ∅)))
       {[ "proj/hello.bst/aaaa" := example_digest (BDir stale_root) ]})
    log_disk [].

(** A build result whose description has white space at both ends. *)
Definition spaced_result : bool * option string * option string :=
  (false, Some " spaced ", Some "boom").

(** The collaborators of the example: [_objpath] raises for a name its
    directory does not list, as the lookup of a child digest does, and
    the YAML layer takes the white space off both ends of a string. *)
Definition is_space (c : Ascii.ascii) : bool :=
  let n := Ascii.nat_of_ascii c in
  Nat.eqb n 32 || Nat.eqb n 9 || Nat.eqb n 10 || Nat.eqb n 13.
Fixpoint lstrip (s : string) : string :=
  match s with
  | String c s' => if is_space c then lstrip s' else s
  | EmptyString => EmptyString
  end.
Fixpoint rstrip (s : string) : string :=
  match s with
  | String c s' =>
      match rstrip s' with
      | EmptyString => if is_space c then EmptyString else String c EmptyString
      | r => String c r
      end
  | EmptyString => EmptyString
  end.
Definition strip (s : string) : string := lstrip (rstrip s).

Definition example_collaborators : Collaborators :=
  {| objpath_unlisted := λ _ _, Raise NotFound; yaml_str := strip |}.

(** Other collaborators: [_objpath] hands out, for a name its directory
    does not list, a path at which nothing exists, and the YAML layer
    leaves strings as they are. *)
Definition lenient_collaborators : Collaborators :=
  {| objpath_unlisted := λ _ _, Ok NoObject; yaml_str := id |}.

End Examples.

(** * Properties *)

Section Properties.

Context `{HA : HashAlgorithm} `{CO : Collaborators}.

(** ** Vocabulary of the properties *)

(** The root reference of a handle resolves to a directory: its extract
    key names a reference, the index binds it to a digest, and the store
    holds a manifest under that digest. *)
Definition root_resolves (st : State) (root : VDir) : Prop :=
  ∃ key,
    get_extract_key (self st) = Some key ∧
    refs (artifacts st)
      !! (project_name (_element (self st)) +:+ "/" +:+
          name (_element (self st)) +:+ "/" +:+ key)
      = Some (vd_digest root) ∧
    get_manifest (cas (artifacts st)) (vd_digest root) = Ok (vd_index root).

(** A subtree is present: the store answers [contains_directory] with
    true, manifests only or with every file blob. *)
Definition present (st : State) (d : Digest) (with_files : bool) : Prop :=
  contains_directory (cas (artifacts st)) d with_files = Ok true.

(** File contents are required when the context or the element asks for
    them. *)
Definition require_files (st : State) : bool :=
  require_artifact_files (_context (self st))
  || _artifact_files_required (_element (self st)).

Definition files_policy (st : State) (filesdigest : Digest) : Prop :=
  if require_artifact_directories (_context (self st)) then
    if require_files st then present st filesdigest true
    else present st filesdigest false
  else True.

Definition cached_spec (st : State) : Prop :=
  ∃ root,
    root_resolves st root ∧
    (∃ metadigest,
       _get_child_digest root "meta" = Ok metadigest ∧
       present st metadigest true) ∧
    (vd_index root !! "files" = None ∨
     ∃ filesdigest,
       _get_child_digest root "files" = Ok filesdigest ∧
       files_policy st filesdigest).

(** The root reference of a handle does not resolve: the index has no
    binding for it, or the store has no manifest under the digest it is
    bound to. *)
Definition root_not_found (st : State) : Prop :=
  ∃ ref,
    get_artifact_name (_element (self st)) (get_extract_key (self st)) = Ok ref ∧
    (resolve (refs (artifacts st)) ref = Raise NotFound ∨
     ∃ d, resolve (refs (artifacts st)) ref = Ok d ∧
          get_manifest (cas (artifacts st)) d = Raise NotFound).

(** The check comes upon the error [e]: reading the manifest of the root,
    or one of the two containment queries, raises it. *)
Definition check_raises (st : State) (e : Error) : Prop :=
  (∃ ref d,
     get_artifact_name (_element (self st)) (get_extract_key (self st)) = Ok ref ∧
     resolve (refs (artifacts st)) ref = Ok d ∧
     get_manifest (cas (artifacts st)) d = Raise e) ∨
  (∃ root metadigest,
     (_get_directory None st).1 = Ok root ∧
     _get_child_digest root "meta" = Ok metadigest ∧
     (contains_directory (cas (artifacts st)) metadigest true = Raise e ∨
      ∃ filesdigest,
        contains_directory (cas (artifacts st)) metadigest true = Ok true ∧
        _get_child_digest root "files" = Ok filesdigest ∧
        require_artifact_directories (_context (self st)) = true ∧
        contains_directory (cas (artifacts st)) filesdigest (require_files st)
          = Raise e)).

(** The metadata accessors, the memo field each of them keeps, if any, and
    what they return. *)
Inductive Accessor :=
  | Keys
  | Dependencies
  | Workspaced
  | WorkspacedDependencies
  | BuildResult
  | PublicData.

Inductive Value :=
  | VKeys (keys : string * string)
  | VDependencies (deps : dict)
  | VWorkspaced (workspaced : bool)
  | VWorkspacedDependencies (deps : list Node)
  | VBuildResult (build_result : bool * option string * option string)
  | VPublicData (data : dict).

Definition call (acc : Accessor) : M Value :=
  match acc with
  | Keys => v ← get_metadata_keys; mret (VKeys v)
  | Dependencies => v ← get_metadata_dependencies; mret (VDependencies v)
  | Workspaced => v ← get_metadata_workspaced; mret (VWorkspaced v)
  | WorkspacedDependencies =>
      v ← get_metadata_workspaced_dependencies; mret (VWorkspacedDependencies v)
  | BuildResult => v ← load_build_result; mret (VBuildResult v)
  | PublicData => v ← load_public_data; mret (VPublicData v)
  end.

(** The filename an accessor hands to [_yaml.load]. *)
Definition shortname (acc : Accessor) : string :=
  match acc with
  | Keys => "keys.yaml"
  | Dependencies => "dependencies.yaml"
  | Workspaced => "workspaced.yaml"
  | WorkspacedDependencies => "workspaced-dependencies.yaml"
  | BuildResult => "build-result.yaml"
  | PublicData => "public.yaml"
  end.

(** The memo field of an accessor on a handle, as the value the accessor
    would return from it; the two [load_] methods have none. *)
Definition memo (acc : Accessor) (a : Artifact) : option Value :=
  match acc with
  | Keys => VKeys <$> _metadata_keys a
  | Dependencies => VDependencies <$> _metadata_dependencies a
  | Workspaced => VWorkspaced <$> _metadata_workspaced a
  | WorkspacedDependencies =>
      VWorkspacedDependencies <$> _metadata_workspaced_dependencies a
  | BuildResult | PublicData => None
  end.

Definition memoized (acc : Accessor) : bool :=
  match acc with
  | Keys | Dependencies | Workspaced | WorkspacedDependencies => true
  | BuildResult | PublicData => false
  end.

(** The state after one call, and after a sequence of calls, whatever they
    returned or raised. *)
Definition after (st : State) (acc : Accessor) : State := (call acc st).2.
Definition after_all (st : State) (accs : list Accessor) : State :=
  foldl after st accs.

(** How many times a file was handed to [_yaml.load]. *)
Definition loads_of (name : string) (st : State) : nat :=
  length (filter (λ n, n = name) (yaml_loads st)).

(** The document [_yaml.load] finds at a path. *)
Definition yaml_document (objects : gmap Digest Stored) (p : fs_path)
  : result dict :=
  match p with
  | NoObject => Raise NotFound
  | ObjectPath d =>
      b ← get_blob objects d;
      match b with
      | BFile (Document (NDict data)) => Ok data
      | _ => Raise Malformed
      end
  end.

(** What an accessor makes of its document. *)
Definition parse (acc : Accessor) (meta : dict) : result Value :=
  match acc with
  | Keys =>
      strong_key ← node_get_str meta "strong";
      weak_key ← node_get_str meta "weak";
      Ok (VKeys (strong_key, weak_key))
  | Dependencies => Ok (VDependencies meta)
  | Workspaced =>
      workspaced ← node_get_bool meta "workspaced";
      Ok (VWorkspaced workspaced)
  | WorkspacedDependencies =>
      deps ← node_get_list meta "workspaced-dependencies";
      Ok (VWorkspacedDependencies (map node_sanitize deps))
  | BuildResult =>
      success ← node_get_bool meta "success";
      description ← node_get_str_default_none meta "description";
      detail ← node_get_str_default_none meta "detail";
      Ok (VBuildResult (success, description, detail))
  | PublicData => Ok (VPublicData meta)
  end.

(** The handle after an accessor has returned a value. *)
Definition remember (v : Value) (a : Artifact) : Artifact :=
  match v with
  | VKeys keys => set_metadata_keys keys a
  | VDependencies deps => set_metadata_dependencies deps a
  | VWorkspaced workspaced => set_metadata_workspaced workspaced a
  | VWorkspacedDependencies deps => set_metadata_workspaced_dependencies deps a
  | VBuildResult _ | VPublicData _ => a
  end.

Definition keep (acc : Accessor) (v : Value) (st : State) : State :=
  if memoized acc then set_self (remember v) st else st.

(** A call that finds no memo: the file is looked up in [meta/], handed to
    the loader and parsed. *)
Definition read_through (acc : Accessor) (st : State) : result Value * State :=
  match (_get_subdirectory "meta" None st).1 with
  | Raise e => (Raise e, st)
  | Ok meta_vdir =>
      match _objpath meta_vdir (shortname acc) with
      | Raise e => (Raise e, st)
      | Ok meta_file =>
          match acc, os_path_exists (cas (artifacts st)) meta_file with
          | BuildResult, false =>
              (Ok (VBuildResult (true, Some "succeeded", None)), st)
          | _, _ =>
              let st1 := log_load (shortname acc) st in
              match
                yaml_document (cas (artifacts st)) meta_file ≫= parse acc
              with
              | Ok v => (Ok v, keep acc v st1)
              | Raise e => (Raise e, st1)
              end
          end
      end
  end.

(** The accessor a value comes from. *)
Definition accessor_of (v : Value) : Accessor :=
  match v with
  | VKeys _ => Keys
  | VDependencies _ => Dependencies
  | VWorkspaced _ => Workspaced
  | VWorkspacedDependencies _ => WorkspacedDependencies
  | VBuildResult _ => BuildResult
  | VPublicData _ => PublicData
  end.

Global Instance Accessor_eq_dec : EqDecision Accessor.
Proof. solve_decision. Defined.

(** The store holds a blob under its own digest. *)
Definition stored (b : Blob) (objects : gmap Digest Stored) : Prop :=
  objects !! digest_of b = Some (Readable b).

(** The name of the reference of a key. *)
Definition refname (element : Element) (key : string) : string :=
  project_name element +:+ "/" +:+ name element +:+ "/" +:+ key.

(** The documents [cache()] writes into the real [meta] directory. *)
Definition public_document (publicdata : dict) : Node :=
  node_sanitize (NDict publicdata).

Definition build_result_document
    (buildresult : bool * option string * option string) : Node :=
  NDict
    (match buildresult.2 with
     | Some detail =>
         dict_set [("success", NBool buildresult.1.1);
                   ("description", py_str buildresult.1.2)]
           "detail" (NStr detail)
     | None => [("success", NBool buildresult.1.1);
                ("description", py_str buildresult.1.2)]
     end).

Definition keys_document (a : Artifact) : Node :=
  node_sanitize (NDict [("strong", py_str (_cache_key a));
                        ("weak", py_str (_weak_cache_key a))]).

Definition dependencies_document (element : Element) : Node :=
  node_sanitize (NDict (dict_of_list
    (map (λ e, (dep_name e, py_str (dep_cache_key e))) (dependencies element)))).

Definition workspaced_document (element : Element) : Node :=
  node_sanitize (NDict [("workspaced", NBool (_get_workspace element))]).

Definition workspaced_dependencies_document (element : Element) : Node :=
  node_sanitize (NDict [("workspaced-dependencies",
    NList (map (λ e, NStr (dep_name e))
               (filter (λ e, dep_workspace e = true) (dependencies element))))]).

Definition meta_documents (a : Artifact)
    (buildresult : bool * option string * option string) (publicdata : dict)
  : gmap string Content :=
  <["workspaced-dependencies.yaml" :=
      Document (workspaced_dependencies_document (_element a))]>
  (<["workspaced.yaml" := Document (workspaced_document (_element a))]>
  (<["dependencies.yaml" := Document (dependencies_document (_element a))]>
  (<["keys.yaml" := Document (keys_document a)]>
  (<["build-result.yaml" := Document (build_result_document buildresult)]>
  (<["public.yaml" := Document (public_document publicdata)]> ∅))))).

(** The directory [cache()] has assembled when it asks for its size. *)
Definition assembled (sandbox_build_dir collectvdir : option VDir)
    (metafiles logfiles : gmap string Content) : AssembleDir :=
  let assemblevdir :=
    descend_create (descend_create CasBasedDirectory "logs") "meta" in
  let assemblevdir :=
    match collectvdir with
    | Some source =>
        import_files_vdir (descend_create assemblevdir "files") "files" source
    | None => assemblevdir
    end in
  let assemblevdir :=
    match sandbox_build_dir with
    | Some source =>
        import_files_vdir (descend_create assemblevdir "buildtree")
          "buildtree" source
    | None => assemblevdir
    end in
  alter (λ index, import_real_entries logfiles ∪ index) "logs"
    (alter (λ index, import_real_entries metafiles ∪ index) "meta"
       assemblevdir).

Definition metadir (rootdir : Path) : Path :=
  os_path_join (os_path_join rootdir "artifact") "meta".
Definition logsdir (rootdir : Path) : Path :=
  os_path_join (os_path_join rootdir "artifact") "logs".

(** The documents of the real [meta] directory are six. *)
Definition well_known_files : list string :=
  ["public.yaml"; "build-result.yaml"; "keys.yaml"; "dependencies.yaml";
   "workspaced.yaml"; "workspaced-dependencies.yaml"].

(** The mapping of a sanitized mapping. *)
Definition sanitize_dict (d : dict) : dict :=
  merge_sort key_le (map (λ kv, (kv.1, node_sanitize kv.2)) d).

(** No file is handed to the loader more than once on one handle. *)
Definition parses_at_most_once (acc : Accessor) : Prop :=
  ∀ st accs,
    yaml_loads st = [] →
    (loads_of (shortname acc) (after_all st accs) ≤ 1)%nat.

(** The files [cache()] finds in the real [logs] directory when it imports
    it: the copy of the build log when the context names one, nothing
    otherwise; no answer when the named log cannot be read. *)
Definition expected_logfiles (st : State) : option (gmap string Content) :=
  match get_log_filename (_context (self st)) with
  | Some source =>
      c ← disk st !! source.1 ≫= (.!! source.2);
      Some {[ "build.log" := c ]}
  | None => Some ∅
  end.

(** A method keeps a relation between the state it finds and the state it
    leaves, whatever it returns or raises. *)
Definition preserves {A} (R : relation State) (m : M A) : Prop :=
  ∀ st, R st (m st).2.

(** What [cache()] leaves of a handle: everything but the path of the build
    log of its element. *)
Definition same_handle (st st' : State) : Prop :=
  _context (self st') = _context (self st) ∧
  _cache_key (self st') = _cache_key (self st) ∧
  _weak_cache_key (self st') = _weak_cache_key (self st) ∧
  _metadata_keys (self st') = _metadata_keys (self st) ∧
  _metadata_dependencies (self st') = _metadata_dependencies (self st) ∧
  _metadata_workspaced (self st') = _metadata_workspaced (self st) ∧
  _metadata_workspaced_dependencies (self st')
    = _metadata_workspaced_dependencies (self st) ∧
  project_name (_element (self st')) = project_name (_element (self st)) ∧
  name (_element (self st')) = name (_element (self st)) ∧
  _get_workspace (_element (self st')) = _get_workspace (_element (self st)) ∧
  _cached (_element (self st')) = _cached (_element (self st)) ∧
  _artifact_files_required (_element (self st'))
    = _artifact_files_required (_element (self st)) ∧
  dependencies (_element (self st')) = dependencies (_element (self st)) ∧
  yaml_loads st' = yaml_loads st.

(** The reference index is as it was. *)
Definition same_refs (st st' : State) : Prop :=
  refs (artifacts st') = refs (artifacts st).

(** A method that raises has kept a relation between the state it found and
    the state it leaves. *)
Definition raises_within {A} (R : relation State) (m : M A) : Prop :=
  ∀ st e st', m st = (Raise e, st') → R st st'.

(** ** Lemmas and theorems *)

(** *** The bound on the depth of a traversal *)

(** An answer of [contains_directory] that is not the exhaustion of the
    bound is the answer under every larger bound. *)
Lemma contains_directory_fuel_mono (n m : nat) objects digest with_files :
  (n ≤ m)%nat →
  contains_directory_fuel n objects digest with_files ≠ Raise RecursionError →
  contains_directory_fuel m objects digest with_files
    = contains_directory_fuel n objects digest with_files.
Proof.
  revert m digest. induction n as [|n IH]; intros m digest Hle Hn; [done|].
  destruct m as [|m]; [lia|]. simpl in *.
  destruct (get_manifest objects digest) as [mf|e]; [|done].
  induction (entries mf) as [|[child entry] l IHl]; [done|].
  simpl in *. destruct entry as [d x|d|target]; simpl in *.
  - destruct (if with_files then blob_present objects d else Ok true)
      as [[|]|e]; simpl in *; [by apply IHl | done | done].
  - assert (contains_directory_fuel n objects d with_files
            ≠ Raise RecursionError) as Hsub.
    { intros Hsub. rewrite Hsub in Hn. by apply Hn. }
    rewrite (IH m d); [|lia|done].
    destruct (contains_directory_fuel n objects d with_files) as [[|]|e];
      simpl in *; [by apply IHl | done | done].
  - by apply IHl.
Qed.

(** *** Running a method *)

Lemma bind_Ok {A B} (m : M A) (f : A → M B) st b st' :
  (m ≫= f) st = (Ok b, st') ↔
  ∃ a st1, m st = (Ok a, st1) ∧ f a st1 = (Ok b, st').
Proof.
  unfold mbind, M_bind. split.
  - destruct (m st) as [[a|e] st1]; [eauto | discriminate].
  - intros (a & st1 & -> & H). done.
Qed.

Lemma bind_run {A B} (m : M A) (f : A → M B) st a st1 :
  m st = (Ok a, st1) → (m ≫= f) st = f a st1.
Proof. unfold mbind, M_bind. by intros ->. Qed.

Lemma bind_raise {A B} (m : M A) (f : A → M B) st e st1 :
  m st = (Raise e, st1) → (m ≫= f) st = (Raise e, st1).
Proof. unfold mbind, M_bind. by intros ->. Qed.

(** *** The root directory of a handle *)

Lemma _get_directory_state st : (_get_directory None st).2 = st.
Proof.
  unfold _get_directory, get_artifact_directory, mbind, M_bind,
    gets, lift; simpl.
  destruct (get_artifact_name _ _); simpl; [|done].
  destruct (resolve _ _) as [d|[]]; simpl; try done.
  by destruct (open_directory _ _) as [|[]].
Qed.

Lemma _get_directory_Ok st root :
  (_get_directory None st).1 = Ok root ↔ root_resolves st root.
Proof.
  unfold _get_directory, get_artifact_directory, root_resolves,
    mbind, M_bind, gets, lift, get_artifact_name, resolve, open_directory;
    simpl.
  destruct (get_extract_key (self st)) as [key|]; simpl.
  - destruct (refs (artifacts st) !! _) as [d|] eqn:Href; simpl.
    + destruct (get_manifest (cas (artifacts st)) d) as [m|e] eqn:Hm; simpl.
      * split.
        -- intros [= <-]. exists key. simpl. by rewrite Hm.
        -- intros (k & [= <-] & Hd & Hm'). destruct root as [d' m'].
           simpl in *. congruence.
      * split.
        -- by destruct e.
        -- intros (k & [= <-] & Hd & Hm'). congruence.
    + split; [done|]. intros (k & [= <-] & ? & _). congruence.
  - split; [done|]. by intros (k & ? & _).
Qed.

Lemma _get_directory_run st :
  _get_directory None st = ((_get_directory None st).1, st).
Proof.
  rewrite <-(_get_directory_state st) at 3. by destruct (_get_directory None st).
Qed.

(** *** The materialization predicate, in the words of the specification *)

Lemma _exists_false (v : VDir) (child : string) :
  _exists v child = false ↔ vd_index v !! child = None.
Proof.
  unfold _exists. rewrite bool_decide_eq_false, <-eq_None_not_Some. done.
Qed.

Lemma _exists_true_digest (v : VDir) (child : string) d :
  _get_child_digest v child = Ok d → _exists v child = true.
Proof.
  unfold _get_child_digest, _exists. intros Hd. apply bool_decide_eq_true.
  destruct (vd_index v !! child); [eauto | discriminate].
Qed.

(** [cached()] reads and changes nothing. *)
Lemma cached_state st : (cached st).2 = st.
Proof.
  unfold cached, try_except, mbind, M_bind, gets, lift, mret, M_ret; simpl.
  rewrite (_get_directory_run st).
  destruct (_get_directory None st).1 as [root|e]; simpl.
  - destruct (_get_child_digest root "meta") as [md|]; simpl; [|done].
    destruct (contains_directory _ md true) as [[|]|]; simpl; try done.
    destruct (_exists root "files"); simpl; [|done].
    destruct (_get_child_digest root "files") as [fd|]; simpl; [|done].
    destruct (require_artifact_directories _); simpl; [|done].
    by destruct (contains_directory _ fd _) as [[|]|].
  - by destruct (decide (e = ArtifactError)).
Qed.

(** C1. [cached()] returns true exactly when the root reference resolves
    to a directory, the [meta/] subtree is in the store with all its file
    blobs, and either the root has no entry [files] or that entry passes
    the materialization policy: nothing is asked of it when directories
    are not required, its manifests when file contents are not required,
    its file blobs as well otherwise. *)
Theorem cached_iff_materialized (st : State) :
  (cached st).1 = Ok true ↔ cached_spec st.
Proof.
  unfold cached_spec, files_policy, present, require_files.
  setoid_rewrite <-_get_directory_Ok.
  unfold cached, try_except, mbind, M_bind, gets, lift, mret, M_ret; simpl.
  rewrite (_get_directory_run st).
  destruct (_get_directory None st).1 as [root|e]; simpl.
  - destruct (_get_child_digest root "meta") as [md|e] eqn:Hmd; simpl.
    + destruct (contains_directory _ md true) as [[|]|e] eqn:Hmeta; simpl.
      * destruct (_exists root "files") eqn:Hex; simpl.
        -- destruct (_get_child_digest root "files") as [fd|e] eqn:Hfd; simpl.
           ++ destruct (require_artifact_directories _) eqn:Hrd; simpl.
              ** destruct (contains_directory _ fd _) as [[|]|e] eqn:Hfiles;
                   simpl.
                 --- split; [intros _|done]. exists root.
                     split; [done|]. split; [eauto|]. right. exists fd.
                     split; [done|]. by destruct (_ || _).
                 --- split; [done|].
                     intros (r & [= <-] & _ & [Hno|(fd' & Hfd' & Hpol)]).
                     { apply _exists_false in Hno. congruence. }
                     destruct (_ || _); congruence.
                 --- split; [done|].
                     intros (r & [= <-] & _ & [Hno|(fd' & Hfd' & Hpol)]).
                     { apply _exists_false in Hno. congruence. }
                     destruct (_ || _); congruence.
              ** split; [intros _|done]. exists root.
                 split; [done|]. split; [eauto|]. right. by exists fd.
           ++ split; [done|].
              intros (r & [= <-] & _ & [Hno|(fd' & Hfd' & _)]).
              { apply _exists_false in Hno. congruence. }
              congruence.
        -- split; [intros _|done]. exists root.
           split; [done|]. split; [eauto|]. left. by apply _exists_false.
      * split; [done|]. intros (r & [= <-] & (md' & Hmd' & Hp) & _).
        congruence.
      * split; [done|]. intros (r & [= <-] & (md' & Hmd' & Hp) & _).
        congruence.
    + split; [done|]. intros (r & [= <-] & (md' & Hmd' & Hp) & _).
      congruence.
  - split.
    + by destruct (decide (e = ArtifactError)).
    + by intros (r & ? & _).
Qed.

(** *** Errors of the check *)

(** C2. When the root reference does not resolve, [cached()] returns
    false and raises nothing; a [Malformed] or [IOFailed] error met during
    the check reaches the caller. *)
Theorem cached_error_propagation (st : State) :
  (root_not_found st → cached st = (Ok false, st)) ∧
  (∀ e, e = Malformed ∨ e = IOFailed →
        check_raises st e → cached st = (Raise e, st)).
Proof.
  split.
  - intros (ref & Hname & Hmiss).
    unfold cached, try_except, mbind, M_bind, gets, lift, mret, M_ret; simpl.
    unfold _get_directory, get_artifact_directory, mbind, M_bind, gets, lift;
      simpl. rewrite Hname; simpl.
    destruct Hmiss as [->|(d & -> & Hm)]; simpl; [done|].
    unfold open_directory. by rewrite Hm.
  - intros e He [(ref & d & Hname & Hres & Hm)|(root & md & Hroot & Hmd & Hc)].
    + unfold cached, try_except, mbind, M_bind, gets, lift, mret, M_ret; simpl.
      unfold _get_directory, get_artifact_directory, mbind, M_bind, gets, lift;
        simpl. rewrite Hname; simpl. rewrite Hres; simpl.
      unfold open_directory. rewrite Hm; simpl.
      by destruct He as [-> | ->].
    + unfold cached, try_except, mbind, M_bind, gets, lift, mret, M_ret; simpl.
      rewrite (_get_directory_run st), Hroot; simpl. rewrite Hmd; simpl.
      destruct Hc as [-> | (fd & -> & Hfd & Hrd & Hc)]; simpl; [done|].
      rewrite (_exists_true_digest _ _ _ Hfd), Hfd; simpl.
      rewrite Hrd. unfold require_files in Hc. by rewrite Hc.
Qed.

(** *** Extract key *)

(** C7, as amended.  [get_extract_key()] returns the strong key when it is
    set and not the empty string, and the weak key otherwise. *)
Theorem get_extract_key_strong_else_weak (a : Artifact) :
  (∀ key, _cache_key a = Some key → key ≠ EmptyString →
          get_extract_key a = Some key) ∧
  (_cache_key a = None ∨ _cache_key a = Some EmptyString →
   get_extract_key a = _weak_cache_key a).
Proof.
  unfold get_extract_key. split.
  - intros key -> Hne. by destruct key.
  - by intros [-> | ->].
Qed.

(** *** Logs *)

Lemma _get_subdirectory_run (subdir : string) st :
  _get_subdirectory subdir None st = ((_get_subdirectory subdir None st).1, st).
Proof.
  unfold _get_subdirectory, mbind, M_bind, gets, lift, mret, M_ret.
  rewrite (_get_directory_run st).
  destruct (_get_directory None st).1 as [root|e]; simpl; [|done].
  by destruct (descend _ root subdir).
Qed.

Lemma _get_subdirectory_Ok (subdir : string) st sub :
  (_get_subdirectory subdir None st).1 = Ok sub ↔
  ∃ root, root_resolves st root ∧
          descend (cas (artifacts st)) root subdir = Ok sub.
Proof.
  setoid_rewrite <-_get_directory_Ok.
  unfold _get_subdirectory, mbind, M_bind, gets, lift, mret, M_ret.
  rewrite (_get_directory_run st).
  destruct (_get_directory None st).1 as [root|e]; simpl.
  - destruct (descend _ root subdir) as [v|e] eqn:Hd; simpl.
    + split; [intros [= <-]; eauto|]. intros (r & [= <-] & Hd'). congruence.
    + split; [done|]. intros (r & [= <-] & Hd'). congruence.
  - split; [done|]. by intros (r & ? & _).
Qed.

(** C8, as amended.  [cached_logs()] returns true exactly when the element
    is cached and the [logs/] directory of the artifact is in the store with
    all its file blobs. *)
Theorem cached_logs_iff (st : State) :
  (cached_logs st).1 = Ok true ↔
  _cached (_element (self st)) = true ∧
  ∃ root log_vdir,
    root_resolves st root ∧
    descend (cas (artifacts st)) root "logs" = Ok log_vdir ∧
    present st (vd_digest log_vdir) true.
Proof.
  unfold present, cached_logs, mbind, M_bind, gets, lift, mret, M_ret; simpl.
  destruct (_cached (_element (self st))); simpl.
  - rewrite (_get_subdirectory_run "logs" st).
    destruct (_get_subdirectory "logs" None st).1 as [v|e] eqn:Hsub; simpl.
    + apply _get_subdirectory_Ok in Hsub as (root & Hroot & Hd).
      unfold _get_digest. split.
      * intros Hc. split; [done|]. by exists root, v.
      * intros (_ & r & v' & Hr & Hd' & Hc).
        destruct Hroot as (k1 & Hk1 & Hr1 & Hm1).
        destruct Hr as (k2 & Hk2 & Hr2 & Hm2).
        assert (r = root) as ->.
        { destruct r, root; simpl in *. congruence. }
        congruence.
    + split; [done|]. intros (_ & r & v' & Hr & Hd' & _).
      assert ((_get_subdirectory "logs" None st).1 = Ok v') as Hv
        by (apply _get_subdirectory_Ok; eauto).
      congruence.
  - split; [done|]. by intros [? _].
Qed.

(** *** Build result *)


(** *** Calls on a handle *)

(** *** What a call does, step by step *)

Lemma _yaml_load_run (p : fs_path) (n : string) st :
  _yaml_load p n st = (yaml_document (cas (artifacts st)) p, log_load n st).
Proof.
  unfold _yaml_load, yaml_document, modify, mbind, M_bind, gets, lift,
    mret, M_ret; simpl.
  destruct p as [d|]; [|done].
  destruct (get_blob (cas (artifacts st)) d) as [[[|[]]|]|]; done.
Qed.

Lemma call_run (acc : Accessor) (st : State) :
  call acc st =
    match memo acc (self st) with
    | Some v => (Ok v, st)
    | None => read_through acc st
    end.
Proof.
  unfold read_through, keep.
  destruct acc; unfold call, get_metadata_keys, get_metadata_dependencies,
    get_metadata_workspaced, get_metadata_workspaced_dependencies,
    load_build_result, load_public_data, memo, memoized, shortname, parse,
    mbind, M_bind, result_bind, gets, lift, modify, mret, M_ret; simpl.
  - destruct (_metadata_keys (self st)); [done|]; simpl.
    rewrite (_get_subdirectory_run "meta" st).
    destruct (_get_subdirectory "meta" None st).1 as [meta_vdir|]; [|done].
    simpl. destruct (_objpath meta_vdir _) as [meta_file|]; [|done]; simpl.
    rewrite _yaml_load_run.
    destruct (yaml_document _ _) as [meta|]; [|done]; simpl.
    destruct (node_get_str meta "strong"); [|done]; simpl.
    by destruct (node_get_str meta "weak").
  - destruct (_metadata_dependencies (self st)); [done|]; simpl.
    rewrite (_get_subdirectory_run "meta" st).
    destruct (_get_subdirectory "meta" None st).1 as [meta_vdir|]; [|done].
    simpl. destruct (_objpath meta_vdir _) as [meta_file|]; [|done]; simpl.
    rewrite _yaml_load_run.
    by destruct (yaml_document _ _) as [meta|].
  - destruct (_metadata_workspaced (self st)); [done|]; simpl.
    rewrite (_get_subdirectory_run "meta" st).
    destruct (_get_subdirectory "meta" None st).1 as [meta_vdir|]; [|done].
    simpl. destruct (_objpath meta_vdir _) as [meta_file|]; [|done]; simpl.
    rewrite _yaml_load_run.
    destruct (yaml_document _ _) as [meta|]; [|done]; simpl.
    by destruct (node_get_bool meta "workspaced").
  - destruct (_metadata_workspaced_dependencies (self st)); [done|]; simpl.
    rewrite (_get_subdirectory_run "meta" st).
    destruct (_get_subdirectory "meta" None st).1 as [meta_vdir|]; [|done].
    simpl. destruct (_objpath meta_vdir _) as [meta_file|]; [|done]; simpl.
    rewrite _yaml_load_run.
    destruct (yaml_document _ _) as [meta|]; [|done]; simpl.
    by destruct (node_get_list meta "workspaced-dependencies").
  - rewrite (_get_subdirectory_run "meta" st).
    destruct (_get_subdirectory "meta" None st).1 as [meta_vdir|]; [|done].
    simpl. destruct (_objpath meta_vdir _) as [meta_file|]; [|done]; simpl.
    destruct (os_path_exists _ _); simpl; [|done].
    rewrite _yaml_load_run.
    destruct (yaml_document _ _) as [meta|]; [|done]; simpl.
    destruct (node_get_bool meta "success"); [|done]; simpl.
    destruct (node_get_str_default_none meta "description"); [|done]; simpl.
    by destruct (node_get_str_default_none meta "detail").
  - rewrite (_get_subdirectory_run "meta" st).
    destruct (_get_subdirectory "meta" None st).1 as [meta_vdir|]; [|done].
    simpl. destruct (_objpath meta_vdir _) as [meta_file|]; [|done]; simpl.
    rewrite _yaml_load_run.
    by destruct (yaml_document _ _) as [meta|].
Qed.

Lemma parse_accessor acc meta v : parse acc meta = Ok v → accessor_of v = acc.
Proof.
  destruct acc; unfold parse, mbind, result_bind; intros Hp;
    repeat match type of Hp with
           | match ?r with _ => _ end = _ => destruct r; try discriminate
           end;
    by injection Hp as <-.
Qed.

Lemma memo_remember (field : Accessor) (v : Value) (a : Artifact) :
  memo field (remember v a) =
    if decide (field = accessor_of v) then
      if memoized field then Some v else None
    else memo field a.
Proof. by destruct field, v. Qed.

Lemma remember_rest (v : Value) (a : Artifact) :
  _element (remember v a) = _element a ∧
  _context (remember v a) = _context a ∧
  _cache_key (remember v a) = _cache_key a ∧
  _weak_cache_key (remember v a) = _weak_cache_key a.
Proof. by destruct v. Qed.

(** The three ways a call can leave the state: as it was; with one more
    load on record; with one more load on record and the value in the memo
    field of the accessor. *)
Lemma after_cases (acc : Accessor) (st : State) :
  after st acc = st ∨
  after st acc = log_load (shortname acc) st ∨
  ∃ v, memo acc (self st) = None ∧ accessor_of v = acc ∧
       (call acc st).1 = Ok v ∧
       after st acc = keep acc v (log_load (shortname acc) st).
Proof.
  unfold after. rewrite call_run.
  destruct (memo acc (self st)) as [v|] eqn:Hmemo; [by left|].
  unfold read_through.
  destruct (_get_subdirectory "meta" None st).1 as [meta_vdir|]; [|by left].
  destruct (_objpath meta_vdir (shortname acc)) as [meta_file|]; [|by left].
  cbv zeta.
  destruct (yaml_document _ _ ≫= parse acc) as [v|e] eqn:Hp.
  - assert (accessor_of v = acc) as Hacc.
    { unfold mbind, result_bind in Hp.
      destruct (yaml_document _ _); [|done]. by eapply parse_accessor. }
    destruct acc; try (right; right; by exists v).
    destruct (os_path_exists _ _); [|by left].
    right; right; by exists v.
  - destruct acc; try (by right; left).
    destruct (os_path_exists _ _); [by right; left | by left].
Qed.

Lemma call_frame (acc : Accessor) (st : State) :
  artifacts (after st acc) = artifacts st ∧
  disk (after st acc) = disk st ∧
  _element (self (after st acc)) = _element (self st) ∧
  _context (self (after st acc)) = _context (self st) ∧
  _cache_key (self (after st acc)) = _cache_key (self st) ∧
  _weak_cache_key (self (after st acc)) = _weak_cache_key (self st).
Proof.
  destruct (after_cases acc st) as [-> | [-> | (v & _ & _ & _ & ->)]];
    [done | done |].
  unfold keep. destruct (memoized acc); [|done]. simpl.
  by destruct (remember_rest v (self st)) as (-> & -> & -> & ->).
Qed.

Lemma call_memo (acc field : Accessor) (st : State) :
  field ≠ acc ∨ is_Some (memo field (self st)) →
  memo field (self (after st acc)) = memo field (self st).
Proof.
  intros Hfield.
  destruct (after_cases acc st) as [-> | [-> | (v & Hnone & Hacc & _ & ->)]];
    [done | done |].
  unfold keep. destruct (memoized acc); [|done]. simpl.
  rewrite memo_remember, Hacc. case_decide as Heq; [|done]. subst field.
  destruct Hfield as [? | [? ?]]; congruence.
Qed.

Lemma after_all_memo (field : Accessor) (v : Value) accs st :
  memo field (self st) = Some v →
  memo field (self (after_all st accs)) = Some v.
Proof.
  revert st. induction accs as [|acc accs IH]; intros st Hv; [done|].
  simpl. apply IH. rewrite call_memo; [done|]. right. by rewrite Hv.
Qed.

(** C10. A [get_metadata_] accessor changes at most its own memo field:
    the other memo fields, the element, the context, the two keys, the
    artifact cache and the filesystem are after the call what they were
    before it; and a memo field that is set keeps its value through every
    later call of any accessor. *)
Theorem metadata_accessor_frame (acc : Accessor) (st : State) :
  memoized acc = true →
  (∀ other, other ≠ acc →
            memo other (self (after st acc)) = memo other (self st)) ∧
  _element (self (after st acc)) = _element (self st) ∧
  _context (self (after st acc)) = _context (self st) ∧
  _cache_key (self (after st acc)) = _cache_key (self st) ∧
  _weak_cache_key (self (after st acc)) = _weak_cache_key (self st) ∧
  artifacts (after st acc) = artifacts st ∧
  disk (after st acc) = disk st ∧
  (∀ field v later,
     memo field (self st) = Some v →
     memo field (self (after_all st later)) = Some v).
Proof.
  intros _.
  destruct (call_frame acc st) as (Hart & Hdisk & He & Hc & Hk & Hw).
  repeat apply conj; try done.
  - intros other Hne. apply call_memo. by left.
  - intros field v later Hv. by apply after_all_memo.
Qed.

Lemma call_memo_hit (acc : Accessor) (v : Value) (st : State) :
  memo acc (self st) = Some v → call acc st = (Ok v, st).
Proof. intros Hv. by rewrite call_run, Hv. Qed.

Lemma call_Ok_memo (acc : Accessor) (v : Value) (st : State) :
  memoized acc = true →
  (call acc st).1 = Ok v →
  memo acc (self (after st acc)) = Some v.
Proof.
  intros Hm Hv. revert Hv. unfold after. rewrite call_run.
  destruct (memo acc (self st)) as [v'|] eqn:Hmemo.
  - simpl. congruence.
  - unfold read_through.
    destruct (_get_subdirectory "meta" None st).1 as [v0|]; [|done].
    destruct (_objpath v0 (shortname acc)) as [meta_file|]; [|done].
    cbv zeta.
    assert (∀ r : result Value * State,
              (match yaml_document (cas (artifacts st)) meta_file
                       ≫= parse acc with
               | Ok w => (Ok w, keep acc w (log_load (shortname acc) st))
               | Raise e => (Raise e, log_load (shortname acc) st)
               end).1 = Ok v →
              memo acc (self (match yaml_document (cas (artifacts st))
                       meta_file ≫= parse acc with
               | Ok w => (Ok w, keep acc w (log_load (shortname acc) st))
               | Raise e => (Raise e, log_load (shortname acc) st)
               end).2) = Some v) as Hgen.
    { intros _. destruct (yaml_document _ _ ≫= parse acc) as [w|] eqn:Hp;
        [|done]. simpl. intros [= ->].
      unfold mbind, result_bind in Hp. destruct (yaml_document _ _); [|done].
      apply parse_accessor in Hp. unfold keep. rewrite Hm. simpl.
      by rewrite memo_remember, Hp, decide_True, Hm. }
    destruct acc; try discriminate Hm; apply Hgen; exact (Raise NotFound, st).
Qed.

(** C4, as amended.  Each of the four [get_metadata_] accessors, once it
    has returned a value, returns that value at every later call on the
    handle, whatever was called in between, and leaves the state as it
    finds it, so that its file is not handed to the loader again;
    [load_public_data()] and [load_build_result()] keep no memo, and
    every call of them that returns hands their file to the loader once
    more (for the build result: when the file is there). *)
Theorem memoized_accessor_parses_once (acc : Accessor) (st : State) (v : Value) :
  (call acc st).1 = Ok v →
  (memoized acc = true →
   ∀ between,
     let st' := after_all (after st acc) between in
     call acc st' = (Ok v, st') ∧
     loads_of (shortname acc) (after st' acc) = loads_of (shortname acc) st') ∧
  (acc = PublicData →
   loads_of (shortname acc) (after st acc)
     = S (loads_of (shortname acc) st)) ∧
  (acc = BuildResult →
   (∀ meta_vdir meta_file,
      (_get_subdirectory "meta" None st).1 = Ok meta_vdir →
      _objpath meta_vdir "build-result.yaml" = Ok meta_file →
      os_path_exists (cas (artifacts st)) meta_file = true) →
   loads_of (shortname acc) (after st acc)
     = S (loads_of (shortname acc) st)).
Proof.
  intros Hv. split; [|split].
  - intros Hm between st'.
    assert (call acc st' = (Ok v, st')) as Hcall.
    { apply call_memo_hit, after_all_memo. by apply call_Ok_memo. }
    split; [done|]. unfold after. by rewrite Hcall.
  - intros ->. revert Hv. unfold after. rewrite call_run. simpl.
    unfold read_through.
    destruct (_get_subdirectory "meta" None st).1 as [meta_vdir|]; [|done].
    destruct (_objpath meta_vdir _); [|done]. cbv zeta.
    destruct (yaml_document _ _ ≫= parse _); [|done]. intros _.
    unfold keep, loads_of. simpl. reflexivity.
  - intros -> Hex. revert Hv. unfold after. rewrite call_run. simpl.
    unfold read_through.
    destruct (_get_subdirectory "meta" None st).1 as [meta_vdir|]; [|done].
    cbn [shortname].
    destruct (_objpath meta_vdir _) as [meta_file|] eqn:Hpath; [|done].
    cbv zeta. rewrite (Hex meta_vdir meta_file eq_refl Hpath).
    destruct (yaml_document _ _ ≫= parse _); [|done]. intros _.
    unfold keep, loads_of. simpl. reflexivity.
Qed.

(** *** Blobs held by the store *)

Lemma get_blob_stored b objects :
  stored b objects → get_blob objects (digest_of b) = Ok b.
Proof. unfold stored, get_blob. intros ->. by rewrite decide_True. Qed.

Lemma get_manifest_stored m objects :
  stored (BDir m) objects → get_manifest objects (digest_of (BDir m)) = Ok m.
Proof. intros Hs. unfold get_manifest. by rewrite (get_blob_stored _ _ Hs). Qed.

Lemma stored_put_blob b objects : stored b (put_blob b objects).
Proof. apply lookup_insert_eq. Qed.

Lemma stored_serialize_root root objects :
  stored (BDir (root_manifest root)) (serialize root objects).
Proof. apply stored_put_blob. Qed.

Section CollisionFree.

(** Two blobs with one digest are one blob. *)
Context {collision_free : Inj (=) (=) (digest_of : Blob → Digest)}.

Lemma stored_put_blob_other b b' objects :
  stored b objects → stored b (put_blob b' objects).
Proof.
  unfold stored, put_blob. intros Hs.
  destruct (decide (digest_of b' = digest_of b)) as [Heq|Hne].
  - apply (inj _) in Heq as ->. apply lookup_insert_eq.
  - by rewrite lookup_insert_ne.
Qed.

Lemma stored_import_real_blobs_other b files objects :
  stored b objects → stored b (import_real_blobs files objects).
Proof.
  intros Hs. unfold import_real_blobs.
  apply (map_fold_weak_ind (λ acc _, stored b acc)); [done|].
  intros name c m acc _ IH. by apply stored_put_blob_other.
Qed.

Lemma stored_import_real_blobs files objects name c :
  files !! name = Some c →
  stored (BFile c) (import_real_blobs files objects).
Proof.
  unfold import_real_blobs. revert name c.
  apply (map_fold_weak_ind
           (λ acc m, ∀ name c, m !! name = Some c → stored (BFile c) acc)).
  - intros name c. by rewrite lookup_empty.
  - intros i x m acc _ IH name c. rewrite lookup_insert.
    case_decide.
    + intros [= ->]. apply stored_put_blob.
    + intros Hm. apply stored_put_blob_other. by eapply IH.
Qed.

Lemma stored_serialize_other b root objects :
  stored b objects → stored b (serialize root objects).
Proof.
  intros Hs. unfold serialize. apply stored_put_blob_other.
  apply (map_fold_weak_ind (λ acc _, stored b acc)); [done|].
  intros name c m acc _ IH. by apply stored_put_blob_other.
Qed.

Lemma stored_serialize_child root objects name index :
  root !! name = Some index →
  stored (BDir index) (serialize root objects).
Proof.
  unfold serialize. intros Hname. apply stored_put_blob_other.
  revert name index Hname.
  apply (map_fold_weak_ind
           (λ acc m, ∀ name index,
              m !! name = Some index → stored (BDir index) acc)).
  - intros name index. by rewrite lookup_empty.
  - intros i x m acc _ IH name index. rewrite lookup_insert.
    case_decide.
    + intros [= ->]. apply stored_put_blob.
    + intros Hm. apply stored_put_blob_other. by eapply IH.
Qed.

End CollisionFree.

(** *** What [cache()] leaves behind *)

Lemma gets_Ok {A} (f : State → A) st a st1 :
  gets f st = (Ok a, st1) ↔ a = f st ∧ st1 = st.
Proof. unfold gets. split; [by intros [= <- <-] | by intros [-> ->]]. Qed.

Lemma modify_Ok (f : State → State) st u st1 :
  modify f st = (Ok u, st1) ↔ st1 = f st.
Proof.
  unfold modify. destruct u. split; [by intros [= <-] | by intros ->].
Qed.

Lemma lift_Ok {A} (r : result A) st a st1 :
  lift r st = (Ok a, st1) ↔ r = Ok a ∧ st1 = st.
Proof. unfold lift. split; [by intros [= <- <-] | by intros [-> ->]]. Qed.

Lemma mret_Ok {A} (x : A) st a st1 :
  mret (M := M) x st = (Ok a, st1) ↔ a = x ∧ st1 = st.
Proof.
  unfold mret, M_ret. split; [by intros [= <- <-] | by intros [-> ->]].
Qed.

Lemma os_mkdir_Ok dir st u st1 :
  os_mkdir dir st = (Ok u, st1) ↔
  disk st !! dir = None ∧ st1 = set_disk <[dir := ∅]> st.
Proof.
  unfold os_mkdir. destruct (disk st !! dir); destruct u.
  - split; [done | by intros [? _]].
  - split; [by intros [= <-] | by intros [_ ->]].
Qed.

Lemma write_file_run dir file c files st :
  disk st !! dir = Some files →
  write_file (dir, file) c st
    = (Ok tt, set_disk <[dir := <[file := c]> files]> st).
Proof. unfold write_file. simpl. by intros ->. Qed.

Lemma read_file_Ok p st c st1 :
  read_file p st = (Ok c, st1) ↔
  disk st !! p.1 ≫= (.!! p.2) = Some c ∧ st1 = st.
Proof.
  unfold read_file. destruct (disk st !! p.1 ≫= (.!! p.2)).
  - split; [by intros [= <- <-] | by intros [[= ->] ->]].
  - split; [done | by intros [? _]].
Qed.

Lemma import_files_real_run root child dir files st :
  disk st !! dir = Some files →
  import_files_real root child dir st
    = (Ok (alter (λ index, import_real_entries files ∪ index) child root),
       set_cas (import_real_blobs files) st).
Proof.
  intros Hdir.
  unfold import_files_real, listdir, modify, mbind, M_bind, mret, M_ret.
  by rewrite Hdir.
Qed.

Lemma lookup_set_disk_eq st dir files :
  disk (set_disk <[dir := files]> st) !! dir = Some files.
Proof. simpl. apply lookup_insert_eq. Qed.

Lemma lookup_set_disk_ne st dir dir' files :
  dir ≠ dir' →
  disk (set_disk <[dir := files]> st) !! dir' = disk st !! dir'.
Proof. intros Hne. simpl. by apply lookup_insert_ne. Qed.

(** A key list that [commit] accepts has both keys, and both references
    are bound afterwards. *)
Lemma commit_refnames element (strong_key weak_key : option string) refnames :
  mapM_result (get_artifact_name element) (_deduplicate [strong_key; weak_key])
    = Ok refnames →
  ∃ strong weak,
    strong_key = Some strong ∧ weak_key = Some weak ∧
    ∀ (index : gmap string Digest) tree key,
      key = strong ∨ key = weak →
      foldr (λ ref acc, <[ref := tree]> acc) index refnames
        !! refname element key = Some tree.
Proof.
  unfold _deduplicate. simpl.
  destruct (decide (weak_key ∈ [strong_key])) as [Hin|Hnin]; simpl.
  - apply list_elem_of_singleton in Hin as ->.
    destruct strong_key as [strong|]; simpl; [|done].
    intros [= <-]. exists strong, strong. split; [done|]. split; [done|].
    intros index tree key [-> | ->]; simpl; apply lookup_insert_eq.
  - destruct strong_key as [strong|]; simpl; [|done].
    destruct weak_key as [weak|]; simpl; [|done].
    intros [= <-]. exists strong, weak. split; [done|]. split; [done|].
    intros index tree key [-> | ->]; simpl.
    + apply lookup_insert_eq.
    + rewrite lookup_insert. case_decide; [done|]. apply lookup_insert_eq.
Qed.

Ltac st_simpl :=
  cbn [disk artifacts cas refs self yaml_loads
       set_refs set_cas set_disk set_self log_load].

Lemma logsdir_ne_metadir rootdir : logsdir rootdir ≠ metadir rootdir.
Proof.
  unfold logsdir, metadir, os_path_join. intros Heq.
  by apply app_inv_head in Heq.
Qed.

(** A successful [cache()]: the handle had both keys; the six documents
    are in the real [meta] directory; the store has received the blobs of
    the two imported directories and the manifests of the assembled
    directory; both references are bound to the digest of its root. *)
Lemma cache_Ok rootdir sandbox_build_dir collectvdir buildresult publicdata
    st n st' :
  cache rootdir sandbox_build_dir collectvdir buildresult publicdata st
    = (Ok n, st') →
  ∃ strong weak logfiles,
    let metafiles := meta_documents (self st) buildresult publicdata in
    let root := assembled sandbox_build_dir collectvdir metafiles logfiles in
    _cache_key (self st) = Some strong ∧
    _weak_cache_key (self st) = Some weak ∧
    self st'
      = set_build_log_path (os_path_join_file (logsdir rootdir) "build.log")
          (self st) ∧
    yaml_loads st' = yaml_loads st ∧
    disk st' !! metadir rootdir = Some metafiles ∧
    cas (artifacts st')
      = serialize root (serialize root
          (import_real_blobs logfiles
             (import_real_blobs metafiles (cas (artifacts st))))) ∧
    (∀ key, key = strong ∨ key = weak →
            refs (artifacts st') !! refname (_element (self st)) key
              = Some (digest_of (BDir (root_manifest root)))).
Proof.
  intros H. unfold cache in H.
  apply bind_Ok in H as (a & s0 & Ha & H). apply gets_Ok in Ha as [-> ->].
  cbv zeta in H.
  apply bind_Ok in H as (u1 & s1 & Hmk1 & H).
  apply os_mkdir_Ok in Hmk1 as [_ ->].
  apply bind_Ok in H as (u2 & s2 & Hmk2 & H).
  apply os_mkdir_Ok in Hmk2 as [_ ->].
  apply bind_Ok in H as (u3 & s3 & Hmk3 & H).
  apply os_mkdir_Ok in Hmk3 as [_ ->].
  apply bind_Ok in H as (u4 & s4 & Hmod & H).
  apply modify_Ok in Hmod as ->.
  apply bind_Ok in H as (u5 & s5 & Hlog & H).
  assert (∃ logfiles,
            disk s5 !! logsdir rootdir = Some logfiles ∧
            disk s5 !! metadir rootdir = Some ∅ ∧
            self s5 = set_build_log_path
                        (os_path_join_file (logsdir rootdir) "build.log")
                        (self st) ∧
            artifacts s5 = artifacts st ∧
            yaml_loads s5 = yaml_loads st) as (logfiles & Hlogs & Hmeta & Hself & Hart & Hloads).
  { destruct (get_log_filename (_context (self st))) as [source|].
    - unfold shutil_copyfile in Hlog.
      apply bind_Ok in Hlog as (c & s' & Hread & Hwrite).
      apply read_file_Ok in Hread as [_ ->].
      rewrite (write_file_run _ _ _ ∅) in Hwrite.
      2:{ simpl. rewrite lookup_insert_ne by apply not_eq_sym, logsdir_ne_metadir.
          apply lookup_insert_eq. }
      injection Hwrite as _ <-. eexists. split; [apply lookup_set_disk_eq|].
      split; [|done].
      rewrite lookup_set_disk_ne by apply logsdir_ne_metadir.
      apply lookup_set_disk_eq.
    - apply mret_Ok in Hlog as [_ ->]. exists ∅. split; [|split; [|done]].
      + simpl. rewrite lookup_insert_ne by apply not_eq_sym, logsdir_ne_metadir.
        apply lookup_insert_eq.
      + apply lookup_set_disk_eq. }
  clear Hlog.
  apply bind_Ok in H as (element & s6 & He & H).
  apply gets_Ok in He as [-> ->].
  unfold _yaml_dump, os_path_join_file in H.
  fold (metadir rootdir) in H. fold (logsdir rootdir) in H.
  rewrite (bind_run _ _ _ _ _ (write_file_run _ _ _ _ _ Hmeta)) in H.
  do 5 rewrite (bind_run _ _ _ _ _
                  (write_file_run _ _ _ _ _ (lookup_set_disk_eq _ _ _))) in H.
  rewrite (bind_run _ _ _ _ _
             (import_files_real_run _ _ _ _ _ (lookup_set_disk_eq _ _ _))) in H.
  match type of H with
  | (import_files_real _ _ _ ≫= _) ?s = _ =>
      assert (disk s !! logsdir rootdir = Some logfiles) as Hlogs'
  end.
  { st_simpl.
    rewrite !lookup_insert_ne by apply not_eq_sym, logsdir_ne_metadir.
    exact Hlogs. }
  rewrite (bind_run _ _ _ _ _ (import_files_real_run _ _ _ _ _ Hlogs')) in H.
  clear Hlogs'.
  apply bind_Ok in H as (size & s7 & Hsize & H).
  unfold assemble_get_size, assemble_get_digest in Hsize.
  apply bind_Ok in Hsize as (digest & s8 & Hdigest & Hsize).
  apply bind_Ok in Hdigest as (u6 & s9 & Hmod & Hdigest).
  apply modify_Ok in Hmod as ->. apply mret_Ok in Hdigest as [-> ->].
  apply bind_Ok in Hsize as (objects & s10 & Hobj & Hsize).
  apply gets_Ok in Hobj as [-> ->]. apply lift_Ok in Hsize as [_ ->].
  apply bind_Ok in H as (u7 & s11 & Hcommit & H).
  apply mret_Ok in H as [_ ->].
  unfold commit, assemble_get_digest in Hcommit.
  apply bind_Ok in Hcommit as (refnames & s12 & Hnames & Hcommit).
  apply lift_Ok in Hnames as [Hnames ->].
  apply bind_Ok in Hcommit as (tree & s13 & Htree & Hcommit).
  apply bind_Ok in Htree as (u8 & s14 & Hmod & Htree).
  apply modify_Ok in Hmod as ->. apply mret_Ok in Htree as [-> ->].
  apply modify_Ok in Hcommit as ->.
  apply commit_refnames in Hnames as (strong & weak & Hstrong & Hweak & Hrefs).
  exists strong, weak, logfiles. cbv zeta.
  split; [done|]. split; [done|]. split; [by rewrite <-Hself|].
  split; [by rewrite <-Hloads|]. split.
  { st_simpl. rewrite Hself. apply lookup_insert_eq. }
  split.
  { st_simpl. rewrite Hart, Hself. reflexivity. }
  intros key Hkey. st_simpl. rewrite Hself. rewrite Hself in Hrefs.
  exact (Hrefs _ _ key Hkey).
Qed.

(** The children of the assembled directory. *)
Lemma assembled_lookup sandbox_build_dir collectvdir metafiles logfiles :
  let root := assembled sandbox_build_dir collectvdir metafiles logfiles in
  root !! "logs" = Some (import_real_entries logfiles ∪ ∅) ∧
  root !! "meta" = Some (import_real_entries metafiles ∪ ∅) ∧
  root !! "files" = (λ source, vd_index source ∪ ∅) <$> collectvdir ∧
  root !! "buildtree" = (λ source, vd_index source ∪ ∅) <$> sandbox_build_dir ∧
  ∀ child, is_Some (root !! child) →
           child ∈ ["logs"; "meta"; "files"; "buildtree"].
Proof.
  destruct sandbox_build_dir as [b|], collectvdir as [c|]; cbv zeta;
    (split; [reflexivity|]); (split; [reflexivity|]);
    (split; [reflexivity|]); (split; [reflexivity|]); intros child.
  - replace (assembled (Some b) (Some c) metafiles logfiles)
      with (<["logs" := import_real_entries logfiles ∪ ∅]>
            (<["meta" := import_real_entries metafiles ∪ ∅]>
             (<["files" := vd_index c ∪ ∅]>
              (<["buildtree" := vd_index b ∪ ∅]> (∅ : AssembleDir)))))
      by reflexivity.
    rewrite !lookup_insert, lookup_empty.
    repeat case_decide; subst; set_solver.
  - replace (assembled (Some b) None metafiles logfiles)
      with (<["logs" := import_real_entries logfiles ∪ ∅]>
            (<["meta" := import_real_entries metafiles ∪ ∅]>
             (<["buildtree" := vd_index b ∪ ∅]> (∅ : AssembleDir))))
      by reflexivity.
    rewrite !lookup_insert, lookup_empty.
    repeat case_decide; subst; set_solver.
  - replace (assembled None (Some c) metafiles logfiles)
      with (<["logs" := import_real_entries logfiles ∪ ∅]>
            (<["meta" := import_real_entries metafiles ∪ ∅]>
             (<["files" := vd_index c ∪ ∅]> (∅ : AssembleDir))))
      by reflexivity.
    rewrite !lookup_insert, lookup_empty.
    repeat case_decide; subst; set_solver.
  - replace (assembled None None metafiles logfiles)
      with (<["logs" := import_real_entries logfiles ∪ ∅]>
            (<["meta" := import_real_entries metafiles ∪ ∅]>
             (∅ : AssembleDir)))
      by reflexivity.
    rewrite !lookup_insert, lookup_empty.
    repeat case_decide; subst; set_solver.
Qed.

Lemma get_extract_key_set_build_log_path p a :
  get_extract_key (set_build_log_path p a) = get_extract_key a.
Proof. done. Qed.

(** After a successful [cache()] the root reference of the handle resolves
    to the assembled directory. *)
Lemma cache_root rootdir sandbox_build_dir collectvdir buildresult publicdata
    st n st' :
  cache rootdir sandbox_build_dir collectvdir buildresult publicdata st
    = (Ok n, st') →
  ∃ logfiles,
    let metafiles := meta_documents (self st) buildresult publicdata in
    let root := assembled sandbox_build_dir collectvdir metafiles logfiles in
    root_resolves st'
      (mkVDir (digest_of (BDir (root_manifest root))) (root_manifest root)) ∧
    cas (artifacts st')
      = serialize root (serialize root
          (import_real_blobs logfiles
             (import_real_blobs metafiles (cas (artifacts st))))).
Proof.
  intros (strong & weak & logfiles & Hs & Hw & Hself & _ & _ & Hcas & Hrefs)
    %cache_Ok.
  exists logfiles. cbv zeta. split; [|done].
  unfold root_resolves. rewrite Hself, get_extract_key_set_build_log_path.
  assert (∃ key, get_extract_key (self st) = Some key ∧
                 (key = strong ∨ key = weak)) as (key & Hkey & Hor).
  { unfold get_extract_key. rewrite Hs, Hw. destruct strong; simpl; eauto. }
  exists key. split; [done|]. split.
  - exact (Hrefs key Hor).
  - cbn [vd_digest vd_index]. rewrite Hcas.
    apply get_manifest_stored, stored_serialize_root.
Qed.

(** C9. The root directory committed by [cache()] has the children
    [logs] and [meta] whatever the arguments, a child [files] exactly when
    a collected-files directory was given, a child [buildtree] exactly
    when a sandbox build directory was given, and no other child. *)
Theorem cache_root_children rootdir sandbox_build_dir collectvdir
    buildresult publicdata st n st' :
  cache rootdir sandbox_build_dir collectvdir buildresult publicdata st
    = (Ok n, st') →
  ∃ root,
    (_get_directory None st').1 = Ok root ∧
    (∃ d, vd_index root !! "logs" = Some (DirEntry d)) ∧
    (∃ d, vd_index root !! "meta" = Some (DirEntry d)) ∧
    (is_Some (vd_index root !! "files") ↔ is_Some collectvdir) ∧
    (is_Some (vd_index root !! "buildtree") ↔ is_Some sandbox_build_dir) ∧
    (∀ child, is_Some (vd_index root !! child) →
              child ∈ ["logs"; "meta"; "files"; "buildtree"]).
Proof.
  intros (logfiles & Hroot & _)%cache_root. cbv zeta in Hroot.
  eexists. split; [by apply _get_directory_Ok|].
  cbn [vd_index]. unfold root_manifest.
  destruct (assembled_lookup sandbox_build_dir collectvdir
              (meta_documents (self st) buildresult publicdata) logfiles)
    as (Hlogs & Hmeta & Hfiles & Hbuildtree & Hothers).
  cbv zeta in Hothers.
  rewrite !lookup_fmap, Hlogs, Hmeta, Hfiles, Hbuildtree.
  split; [by eexists|]. split; [by eexists|].
  split; [by rewrite !fmap_is_Some|]. split; [by rewrite !fmap_is_Some|].
  intros child. rewrite lookup_fmap, fmap_is_Some. apply Hothers.
Qed.

Lemma meta_documents_lookup a buildresult publicdata (file : string) :
  is_Some (meta_documents a buildresult publicdata !! file) ↔
  file ∈ well_known_files.
Proof.
  unfold meta_documents, well_known_files.
  rewrite <-elem_of_dom, !dom_insert_L, dom_empty_L.
  rewrite !elem_of_union, !elem_of_singleton, elem_of_empty.
  rewrite !elem_of_cons, elem_of_nil. tauto.
Qed.

Lemma meta_documents_Document a buildresult publicdata (file : string) c :
  meta_documents a buildresult publicdata !! file = Some c →
  ∃ node, c = Document node.
Proof.
  unfold meta_documents. rewrite !lookup_insert, lookup_empty.
  repeat case_decide; intros [= <-]; by eexists.
Qed.

(** *** Canonical key order *)

Lemma node_sanitize_NDict (d : dict) :
  node_sanitize (NDict d) = NDict (sanitize_dict d).
Proof. done. Qed.

Lemma dict_get_Some (d : dict) (key : string) (v : Node) :
  NoDup d.*1 → dict_get d key = Some v ↔ (key, v) ∈ d.
Proof.
  induction d as [|[k w] d IH]; simpl; intros Hnd.
  - split; [done|]. by intros ?%elem_of_nil.
  - apply NoDup_cons in Hnd as [Hk Hnd]. rewrite elem_of_cons.
    case_decide as Heq.
    + subst k. split; [intros [= ->]; by left|].
      intros [[= ->] | Hin]; [done|].
      exfalso. apply Hk. apply list_elem_of_fmap. by exists (key, v).
    + rewrite (IH Hnd). split; [by right|].
      intros [[= -> ->] | Hin]; [done | done].
Qed.

(** Sanitizing a mapping keeps what is found under each key, sanitized. *)
Lemma sanitize_dict_get (d : dict) (key : string) :
  NoDup d.*1 →
  dict_get (sanitize_dict d) key = node_sanitize <$> dict_get d key.
Proof.
  intros Hnd. unfold sanitize_dict.
  set (f := λ kv : string * Node, (kv.1, node_sanitize kv.2)).
  assert (merge_sort key_le (map f d) ≡ₚ map f d) as Hperm
    by apply merge_sort_Permutation.
  assert ((map f d).*1 = d.*1) as Hkeys.
  { clear. induction d as [|[k w] d IH]; simpl; by f_equal. }
  assert (NoDup (merge_sort key_le (map f d)).*1) as Hnd'.
  { rewrite Hperm, Hkeys. done. }
  destruct (dict_get d key) as [v|] eqn:Hget; simpl.
  - apply dict_get_Some; [done|]. rewrite Hperm.
    apply dict_get_Some in Hget; [|done].
    apply (list_elem_of_fmap_2 f) in Hget. done.
  - destruct (dict_get (merge_sort _ _) key) as [w|] eqn:Hget'; [|done].
    apply dict_get_Some in Hget'; [|done]. rewrite Hperm in Hget'.
    apply list_elem_of_fmap in Hget' as ([k v] & [= -> ->] & Hin).
    apply dict_get_Some in Hin; [|done]. simpl in Hin. congruence.
Qed.

Lemma map_node_sanitize_NStr {A} (f : A → string) (l : list A) :
  map node_sanitize (map (λ x, NStr (f x)) l) = map (λ x, NStr (f x)) l.
Proof. induction l; simpl; by f_equal. Qed.

(** The value of a call, as the method of the class returns it. *)
Lemma call_value (acc : Accessor) (v : Value) st :
  (call acc st).1 = Ok v →
  match v with
  | VKeys x => (get_metadata_keys st).1 = Ok x
  | VDependencies x => (get_metadata_dependencies st).1 = Ok x
  | VWorkspaced x => (get_metadata_workspaced st).1 = Ok x
  | VWorkspacedDependencies x =>
      (get_metadata_workspaced_dependencies st).1 = Ok x
  | VBuildResult x => (load_build_result st).1 = Ok x
  | VPublicData x => (load_public_data st).1 = Ok x
  end.
Proof.
  destruct acc; unfold call, mbind at 1, M_bind at 1, mret, M_ret.
  - destruct (get_metadata_keys st) as [[x|] ?]; [|done]. by intros [= <-].
  - destruct (get_metadata_dependencies st) as [[x|] ?]; [|done].
    by intros [= <-].
  - destruct (get_metadata_workspaced st) as [[x|] ?]; [|done].
    by intros [= <-].
  - destruct (get_metadata_workspaced_dependencies st) as [[x|] ?]; [|done].
    by intros [= <-].
  - destruct (load_build_result st) as [[x|] ?]; [|done]. by intros [= <-].
  - destruct (load_public_data st) as [[x|] ?]; [|done]. by intros [= <-].
Qed.

Section CommittedMetadata.

Context {collision_free : Inj (=) (=) (digest_of : Blob → Digest)}.

(** After a successful [cache()], the [meta/] directory of the artifact
    lists the documents of the real [meta] directory, and the store
    holds each of them. *)
Lemma cache_meta rootdir sandbox_build_dir collectvdir buildresult
    publicdata st n st' :
  cache rootdir sandbox_build_dir collectvdir buildresult publicdata st
    = (Ok n, st') →
  let metafiles := meta_documents (self st) buildresult publicdata in
  ∃ meta_vdir,
    (_get_subdirectory "meta" None st').1 = Ok meta_vdir ∧
    vd_index meta_vdir = import_real_entries metafiles ∧
    ∀ file c, metafiles !! file = Some c →
              stored (BFile c) (cas (artifacts st')).
Proof.
  intros (logfiles & Hroot & Hcas)%cache_root metafiles.
  cbv zeta in Hroot, Hcas. fold metafiles in Hroot, Hcas.
  destruct (assembled_lookup sandbox_build_dir collectvdir metafiles logfiles)
    as (_ & Hmeta & _). rewrite (right_id_L ∅ (∪)) in Hmeta.
  exists (mkVDir (digest_of (BDir (import_real_entries metafiles)))
            (import_real_entries metafiles)).
  split; [|split; [done|]].
  - apply _get_subdirectory_Ok. eexists. split; [exact Hroot|].
    unfold descend. cbn [vd_index]. unfold root_manifest at 1.
    rewrite lookup_fmap, Hmeta. cbn [fmap option_fmap option_map].
    unfold open_directory. rewrite Hcas.
    rewrite get_manifest_stored; [done|].
    apply stored_serialize_other. by eapply stored_serialize_child.
  - intros file c Hfile. rewrite Hcas.
    do 2 apply stored_serialize_other.
    apply stored_import_real_blobs_other.
    by eapply stored_import_real_blobs.
Qed.

(** C5, as amended.  [cache()] writes six YAML documents into the real
    [meta] directory: [public.yaml], [build-result.yaml], [keys.yaml],
    [dependencies.yaml], [workspaced.yaml] and
    [workspaced-dependencies.yaml]; the [meta/] directory of the root it
    commits lists those six files and no other, each with the digest of
    its document, and the store holds the six documents. *)
Theorem cache_emits_six_documents rootdir sandbox_build_dir collectvdir
    buildresult publicdata st n st' :
  cache rootdir sandbox_build_dir collectvdir buildresult publicdata st
    = (Ok n, st') →
  ∃ metafiles meta_vdir,
    disk st' !! metadir rootdir = Some metafiles ∧
    (∀ file, is_Some (metafiles !! file) ↔ file ∈ well_known_files) ∧
    (_get_subdirectory "meta" None st').1 = Ok meta_vdir ∧
    (∀ file, is_Some (vd_index meta_vdir !! file) ↔ file ∈ well_known_files) ∧
    (∀ file c,
       metafiles !! file = Some c →
       (∃ node, c = Document node) ∧
       vd_index meta_vdir !! file = Some (FileEntry (digest_of (BFile c)) false) ∧
       get_blob (cas (artifacts st')) (digest_of (BFile c)) = Ok (BFile c)).
Proof.
  intros Hcache.
  destruct (cache_meta _ _ _ _ _ _ _ _ Hcache)
    as (meta_vdir & Hsub & Hindex & Hstored).
  apply cache_Ok in Hcache
    as (strong & weak & logfiles & _ & _ & _ & _ & Hdisk & _).
  cbv zeta in Hdisk.
  exists (meta_documents (self st) buildresult publicdata), meta_vdir.
  split; [done|]. split; [apply meta_documents_lookup|].
  split; [done|]. split.
  - intros file. rewrite Hindex. unfold import_real_entries.
    rewrite lookup_fmap, fmap_is_Some. apply meta_documents_lookup.
  - intros file c Hfile. split; [by eapply meta_documents_Document|].
    split.
    + rewrite Hindex. unfold import_real_entries.
      by rewrite lookup_fmap, Hfile.
    + apply get_blob_stored. by eapply Hstored.
Qed.

(** Reading a document of [meta/] back after a successful [cache()],
    through any handle on the element that looks the artifact up under one
    of the two keys and has no memo for the document. *)
Lemma cache_then_call_on (acc : Accessor) (data : dict) (a : Artifact)
    (key : string) rootdir sandbox_build_dir collectvdir buildresult
    publicdata st n st' :
  cache rootdir sandbox_build_dir collectvdir buildresult publicdata st
    = (Ok n, st') →
  project_name (_element a) = project_name (_element (self st)) →
  name (_element a) = name (_element (self st)) →
  get_extract_key a = Some key →
  _cache_key (self st) = Some key ∨ _weak_cache_key (self st) = Some key →
  memo acc a = None →
  meta_documents (self st) buildresult publicdata !! shortname acc
    = Some (Document (NDict data)) →
  (call acc (set_self (λ _, a) st')).1 = parse acc data.
Proof.
  intros Hcache Hproject Hname Hkey Hor Hmemo Hdoc.
  apply cache_Ok in Hcache
    as (strong & weak & logfiles & Hs & Hw & _ & _ & _ & Hcas & Hrefs).
  cbv zeta in Hcas, Hrefs.
  set (metafiles := meta_documents (self st) buildresult publicdata) in *.
  set (root := assembled sandbox_build_dir collectvdir metafiles logfiles)
    in *.
  destruct (assembled_lookup sandbox_build_dir collectvdir metafiles logfiles)
    as (_ & Hmeta & _). rewrite (right_id_L ∅ (∪)) in Hmeta. fold root in Hmeta.
  assert (stored (BFile (Document (NDict data))) (cas (artifacts st')))
    as Hstored.
  { rewrite Hcas. do 2 apply stored_serialize_other.
    apply stored_import_real_blobs_other.
    by eapply stored_import_real_blobs. }
  assert (key = strong ∨ key = weak) as Hor'.
  { destruct Hor as [Hk | Hk]; [left | right]; congruence. }
  assert ((_get_subdirectory "meta" None (set_self (λ _, a) st')).1
          = Ok (mkVDir (digest_of (BDir (import_real_entries metafiles)))
                  (import_real_entries metafiles))) as Hsub.
  { apply _get_subdirectory_Ok.
    exists (mkVDir (digest_of (BDir (root_manifest root)))
              (root_manifest root)).
    split.
    - exists key. cbn [self set_self artifacts vd_digest vd_index].
      split; [done|]. split.
      + rewrite Hproject, Hname. exact (Hrefs key Hor').
      + rewrite Hcas. apply get_manifest_stored, stored_serialize_root.
    - unfold descend. cbn [vd_index artifacts set_self].
      unfold root_manifest at 1.
      rewrite lookup_fmap, Hmeta. cbn [fmap option_fmap option_map].
      unfold open_directory. rewrite Hcas.
      rewrite get_manifest_stored; [done|].
      apply stored_serialize_other. by eapply stored_serialize_child. }
  rewrite call_run. cbn [self set_self]. rewrite Hmemo.
  unfold read_through. rewrite Hsub.
  assert (_objpath
            (mkVDir (digest_of (BDir (import_real_entries metafiles)))
               (import_real_entries metafiles)) (shortname acc)
          = Ok (ObjectPath (digest_of (BFile (Document (NDict data))))))
    as ->.
  { unfold _objpath. cbn [vd_index]. unfold import_real_entries.
    by rewrite lookup_fmap, Hdoc. }
  cbn [artifacts set_self].
  assert (os_path_exists (cas (artifacts st'))
            (ObjectPath (digest_of (BFile (Document (NDict data))))) = true)
    as ->.
  { unfold os_path_exists. apply bool_decide_eq_true. by eexists. }
  unfold yaml_document. rewrite (get_blob_stored _ _ Hstored).
  cbn [mbind result_bind].
  by destruct acc; destruct (parse _ data).
Qed.

Lemma cache_then_call (acc : Accessor) (data : dict) rootdir
    sandbox_build_dir collectvdir buildresult publicdata st n st' :
  cache rootdir sandbox_build_dir collectvdir buildresult publicdata st
    = (Ok n, st') →
  memo acc (self st) = None →
  meta_documents (self st) buildresult publicdata !! shortname acc
    = Some (Document (NDict data)) →
  (call acc st').1 = parse acc data.
Proof.
  intros Hcache Hmemo Hdoc.
  pose proof Hcache as
    (strong & weak & logfiles & Hs & Hw & Hself & _)%cache_Ok.
  assert (∃ key, get_extract_key (self st) = Some key ∧
                 (_cache_key (self st) = Some key ∨
                  _weak_cache_key (self st) = Some key)) as (key & Hkey & Hor).
  { unfold get_extract_key. rewrite Hs, Hw. destruct strong; simpl; eauto. }
  replace st' with (set_self (λ _, self st') st') by by destruct st'.
  apply (cache_then_call_on acc data (self st') key _ _ _ _ _ _ _ _ Hcache).
  - by rewrite Hself.
  - by rewrite Hself.
  - by rewrite Hself, get_extract_key_set_build_log_path.
  - exact Hor.
  - rewrite Hself. by destruct acc.
  - exact Hdoc.
Qed.

(** C6, as amended.  After a successful [cache()] on a handle with a
    strong and a weak key, read through any handle on the element that
    looks the artifact up under one of the two keys: each accessor that
    has no memoized value on that handle returns what was committed, with
    every string as the YAML layer hands it back.  [get_metadata_keys()]
    returns the two keys, [load_build_result()] the build result,
    [load_public_data()] and [get_metadata_dependencies()] the public data
    and the dependency keys in canonical key order,
    [get_metadata_workspaced()] whether the element has a workspace and
    [get_metadata_workspaced_dependencies()] the names of the dependencies
    that have one. *)
Theorem cache_then_read (a : Artifact) (key strong weak : string) rootdir
    sandbox_build_dir collectvdir buildresult publicdata st n st' :
  cache rootdir sandbox_build_dir collectvdir buildresult publicdata st
    = (Ok n, st') →
  _cache_key (self st) = Some strong →
  _weak_cache_key (self st) = Some weak →
  project_name (_element a) = project_name (_element (self st)) →
  name (_element a) = name (_element (self st)) →
  get_extract_key a = Some key →
  key = strong ∨ key = weak →
  let st_a := set_self (λ _, a) st' in
  let element := _element (self st) in
  (_metadata_keys a = None →
   (get_metadata_keys st_a).1 = Ok (yaml_str strong, yaml_str weak)) ∧
  (load_build_result st_a).1
    = Ok (buildresult.1.1, yaml_str <$> buildresult.1.2,
          yaml_str <$> buildresult.2) ∧
  (load_public_data st_a).1 = Ok (sanitize_dict publicdata) ∧
  (_metadata_dependencies a = None →
   (get_metadata_dependencies st_a).1
     = Ok (sanitize_dict (dict_of_list
             (map (λ e, (dep_name e, py_str (dep_cache_key e)))
                  (dependencies element))))) ∧
  (_metadata_workspaced a = None →
   (get_metadata_workspaced st_a).1 = Ok (_get_workspace element)) ∧
  (_metadata_workspaced_dependencies a = None →
   (get_metadata_workspaced_dependencies st_a).1
     = Ok (map (λ e, NStr (dep_name e))
               (filter (λ e, dep_workspace e = true) (dependencies element)))).
Proof.
  intros Hcache Hs Hw Hproject Hname Hkey Hor st_a element.
  assert (_cache_key (self st) = Some key ∨
          _weak_cache_key (self st) = Some key) as Hor'.
  { destruct Hor as [-> | ->]; [by left | by right]. }
  pose proof (λ acc data Hmemo Hdoc,
                cache_then_call_on acc data a key _ _ _ _ _ _ _ _ Hcache
                  Hproject Hname Hkey Hor' Hmemo Hdoc)
    as Hcall.
  fold st_a in Hcall. repeat apply conj.
  - intros Hmemo%(f_equal (fmap VKeys)). apply (call_value Keys (VKeys _)).
    rewrite (Hcall Keys [("strong", NStr strong); ("weak", NStr weak)] Hmemo).
    + done.
    + unfold meta_documents, keys_document. rewrite Hs, Hw. reflexivity.
  - apply (call_value BuildResult (VBuildResult _)).
    rewrite (Hcall BuildResult _ eq_refl eq_refl).
    by destruct buildresult as [[success [description|]] [detail|]].
  - apply (call_value PublicData (VPublicData _)).
    by rewrite (Hcall PublicData (sanitize_dict publicdata) eq_refl eq_refl).
  - intros Hmemo%(f_equal (fmap VDependencies)).
    apply (call_value Dependencies (VDependencies _)).
    by rewrite (Hcall Dependencies _ Hmemo eq_refl).
  - intros Hmemo%(f_equal (fmap VWorkspaced)).
    apply (call_value Workspaced (VWorkspaced _)).
    by rewrite (Hcall Workspaced [("workspaced", NBool (_get_workspace element))]
                  Hmemo eq_refl).
  - intros Hmemo%(f_equal (fmap VWorkspacedDependencies)).
    apply (call_value WorkspacedDependencies (VWorkspacedDependencies _)).
    rewrite (Hcall WorkspacedDependencies
               [("workspaced-dependencies",
                 NList (map node_sanitize
                          (map (λ e, NStr (dep_name e))
                             (filter (λ e, dep_workspace e = true)
                                (dependencies element)))))]
               Hmemo eq_refl).
    unfold parse, node_get_list. cbn [dict_get].
    rewrite decide_True by done. cbn [mbind result_bind].
    by rewrite !map_node_sanitize_NStr.
Qed.

End CommittedMetadata.

(** ** Further properties of the class *)

(** *** Relations kept by every step *)

Global Instance same_handle_preorder : PreOrder same_handle.
Proof.
  split.
  - intros st. by repeat apply conj.
  - intros st1 st2 st3 H12 H23. unfold same_handle in *.
    destruct H12 as (?&?&?&?&?&?&?&?&?&?&?&?&?&?).
    destruct H23 as (?&?&?&?&?&?&?&?&?&?&?&?&?&?).
    repeat apply conj; congruence.
Qed.

Global Instance same_refs_preorder : PreOrder same_refs.
Proof.
  split; [by intros st|]. intros st1 st2 st3. unfold same_refs. congruence.
Qed.

Lemma preserves_bind {A B} (R : relation State) `{!PreOrder R}
    (m : M A) (f : A → M B) :
  preserves R m → (∀ a, preserves R (f a)) → preserves R (m ≫= f).
Proof.
  intros Hm Hf st. unfold mbind, M_bind. specialize (Hm st).
  destruct (m st) as [[a|e] st1]; simpl in *; [|done].
  etrans; [exact Hm | apply Hf].
Qed.

Lemma preserves_mret {A} (R : relation State) `{!PreOrder R} (x : A) :
  preserves R (mret (M := M) x).
Proof. by intros st. Qed.

Lemma preserves_gets {A} (R : relation State) `{!PreOrder R} (f : State → A) :
  preserves R (gets f).
Proof. by intros st. Qed.

Lemma preserves_lift {A} (R : relation State) `{!PreOrder R} (r : result A) :
  preserves R (lift r).
Proof. by intros st. Qed.

Lemma preserves_modify (R : relation State) (f : State → State) :
  (∀ st, R st (f st)) → preserves R (modify f).
Proof. intros Hf st. apply Hf. Qed.

Lemma preserves_os_mkdir (R : relation State) `{!PreOrder R} dir :
  (∀ st f, R st (set_disk f st)) → preserves R (os_mkdir dir).
Proof.
  intros Hdisk st. unfold os_mkdir. destruct (disk st !! dir); [done|apply Hdisk].
Qed.

Lemma preserves_write_file (R : relation State) `{!PreOrder R} p c :
  (∀ st f, R st (set_disk f st)) → preserves R (write_file p c).
Proof.
  intros Hdisk st. unfold write_file.
  destruct (disk st !! p.1); [apply Hdisk|done].
Qed.

Lemma preserves_read_file (R : relation State) `{!PreOrder R} p :
  preserves R (read_file p).
Proof.
  intros st. unfold read_file. by destruct (disk st !! p.1 ≫= (.!! p.2)).
Qed.

Lemma preserves_shutil_copyfile (R : relation State) `{!PreOrder R} src dst :
  (∀ st f, R st (set_disk f st)) → preserves R (shutil_copyfile src dst).
Proof.
  intros Hdisk. apply preserves_bind; [done|by apply preserves_read_file|].
  intros c. by apply preserves_write_file.
Qed.

Lemma preserves_import_files_real (R : relation State) `{!PreOrder R}
    root child dir :
  (∀ st f, R st (set_cas f st)) → preserves R (import_files_real root child dir).
Proof.
  intros Hcas st. unfold import_files_real, listdir, modify, mbind, M_bind,
    mret, M_ret.
  destruct (disk st !! dir); [apply Hcas|done].
Qed.

Lemma preserves_assemble_get_digest (R : relation State) `{!PreOrder R} root :
  (∀ st f, R st (set_cas f st)) → preserves R (assemble_get_digest root).
Proof. intros Hcas st. apply Hcas. Qed.

Lemma preserves_assemble_get_size (R : relation State) `{!PreOrder R} root :
  (∀ st f, R st (set_cas f st)) → preserves R (assemble_get_size root).
Proof.
  intros Hcas. apply preserves_bind; [done|by apply preserves_assemble_get_digest|].
  intros digest. apply preserves_bind; [done|by apply preserves_gets|].
  intros objects. by apply preserves_lift.
Qed.

Lemma same_handle_set_disk st f : same_handle st (set_disk f st).
Proof. by repeat apply conj. Qed.

Lemma same_handle_set_cas st f : same_handle st (set_cas f st).
Proof. by repeat apply conj. Qed.

Lemma same_handle_set_refs st f : same_handle st (set_refs f st).
Proof. by repeat apply conj. Qed.

Lemma same_handle_set_build_log_path st p :
  same_handle st (set_self (set_build_log_path p) st).
Proof. by repeat apply conj. Qed.

Lemma same_refs_set_disk st f : same_refs st (set_disk f st).
Proof. done. Qed.

Lemma same_refs_set_cas st f : same_refs st (set_cas f st).
Proof. done. Qed.

Lemma same_refs_set_self st f : same_refs st (set_self f st).
Proof. done. Qed.

(** One step of a method that keeps a relation. *)
Ltac preserves_step R :=
  first
    [ apply (preserves_mret R)
    | apply (preserves_gets R)
    | apply (preserves_lift R)
    | apply (preserves_os_mkdir R); assumption
    | apply (preserves_write_file R); assumption
    | apply (preserves_shutil_copyfile R); assumption
    | apply (preserves_import_files_real R); assumption
    | apply (preserves_assemble_get_size R); assumption
    | apply (preserves_assemble_get_digest R); assumption
    | apply (preserves_modify R); assumption
    | apply (preserves_bind R); [ | intros ?] ].

(** [cache()] up to the commit keeps every relation that writing to the
    filesystem, writing to the store and setting the path of the build log
    keep. *)
Lemma preserves_cache (R : relation State) `{!PreOrder R} rootdir
    sandbox_build_dir collectvdir buildresult publicdata :
  (∀ st f, R st (set_disk f st)) →
  (∀ st f, R st (set_cas f st)) →
  (∀ st f, R st (set_refs f st)) →
  (∀ st p, R st (set_self (set_build_log_path p) st)) →
  preserves R
    (cache rootdir sandbox_build_dir collectvdir buildresult publicdata).
Proof.
  intros Hdisk Hcas Hrefs Hlog. unfold cache, commit, _yaml_dump. cbv zeta.
  assert (∀ p, ∀ st, R st (set_self (set_build_log_path p) st)) as Hlog'
    by (intros; apply Hlog).
  assert (∀ f, ∀ st, R st (set_refs f st)) as Hrefs' by (intros; apply Hrefs).
  do 5 preserves_step R.
  { apply (preserves_modify R). apply Hlog'. }
  preserves_step R.
  { destruct (get_log_filename _); preserves_step R. }
  repeat (preserves_step R).
  apply (preserves_modify R). apply Hrefs'.
Qed.
Lemma raises_within_bind {A B} (R : relation State) `{!PreOrder R}
    (m : M A) (f : A → M B) :
  preserves R m → (∀ a, raises_within R (f a)) → raises_within R (m ≫= f).
Proof.
  intros Hm Hf st e st'. unfold mbind, M_bind. specialize (Hm st).
  destruct (m st) as [[a|e1] st1] eqn:Hrun; simpl in *.
  - intros Hraise. etrans; [exact Hm | by eapply Hf].
  - by intros [= _ <-].
Qed.

(** A commit that raises has not come to bind a reference, nor to write. *)
Lemma commit_raises element content keys st e st' :
  commit element content keys st = (Raise e, st') → st' = st.
Proof.
  unfold commit, assemble_get_digest, modify, lift, mbind, M_bind, mret, M_ret.
  destruct (mapM_result _ _); [done|]. by intros [= _ <-].
Qed.

(** X1. A [cache()] that raises leaves the reference index as it found it:
    whatever fails, the directory being made, the copy of the build log, or
    the commit for want of a key, no reference is bound. *)
Theorem cache_failure_binds_nothing rootdir sandbox_build_dir collectvdir
    buildresult publicdata st e st' :
  cache rootdir sandbox_build_dir collectvdir buildresult publicdata st
    = (Raise e, st') →
  refs (artifacts st') = refs (artifacts st).
Proof.
  revert st e st'. change (raises_within same_refs
    (cache rootdir sandbox_build_dir collectvdir buildresult publicdata)).
  pose proof same_refs_set_disk as Hdisk.
  pose proof same_refs_set_cas as Hcas.
  assert (∀ p, ∀ st, same_refs st (set_self (set_build_log_path p) st))
    as Hlog by done.
  unfold cache, _yaml_dump. cbv zeta.
  do 4 (apply (raises_within_bind same_refs); [preserves_step same_refs|intros ?]).
  apply (raises_within_bind same_refs);
    [apply (preserves_modify same_refs), Hlog|intros ?].
  apply (raises_within_bind same_refs);
    [destruct (get_log_filename _); preserves_step same_refs|intros ?].
  do 10 (apply (raises_within_bind same_refs); [preserves_step same_refs|intros ?]).
  intros st e st'. unfold mbind, M_bind.
  destruct (commit _ _ _ st) as [[u|e1] st1] eqn:Hcommit; [done|].
  intros [= _ <-]. apply commit_raises in Hcommit as ->. done.
Qed.

Lemma cache_same_handle rootdir sandbox_build_dir collectvdir buildresult
    publicdata st :
  same_handle st
    (cache rootdir sandbox_build_dir collectvdir buildresult publicdata st).2.
Proof.
  apply (preserves_cache same_handle).
  - apply same_handle_set_disk.
  - apply same_handle_set_cas.
  - apply same_handle_set_refs.
  - apply same_handle_set_build_log_path.
Qed.

Lemma same_handle_memo (acc : Accessor) st st' :
  same_handle st st' → memo acc (self st') = memo acc (self st).
Proof.
  intros (_ & _ & _ & Hk & Hd & Hw & Hwd & _).
  destruct acc; unfold memo; congruence.
Qed.

(** X2. [cache()] does not reset the memo fields, whether it returns or
    raises: an accessor that had its value in its memo field before the
    call returns that same value after it, and does not look at what was
    committed. *)
Theorem cache_keeps_memo (acc : Accessor) (v : Value) rootdir
    sandbox_build_dir collectvdir buildresult publicdata st :
  memo acc (self st) = Some v →
  let st' :=
    (cache rootdir sandbox_build_dir collectvdir buildresult publicdata st).2 in
  call acc st' = (Ok v, st').
Proof.
  intros Hmemo st'. apply call_memo_hit.
  rewrite <-Hmemo. apply same_handle_memo, cache_same_handle.
Qed.

(** X3. [cache()] hands no file to the loader and changes neither the keys
    nor the context of the handle, whether it returns or raises. *)
Theorem cache_reads_no_metadata rootdir sandbox_build_dir collectvdir
    buildresult publicdata st :
  let st' :=
    (cache rootdir sandbox_build_dir collectvdir buildresult publicdata st).2 in
  yaml_loads st' = yaml_loads st ∧
  _cache_key (self st') = _cache_key (self st) ∧
  _weak_cache_key (self st') = _weak_cache_key (self st) ∧
  _context (self st') = _context (self st) ∧
  get_extract_key (self st') = get_extract_key (self st).
Proof.
  intros st'.
  destruct (cache_same_handle rootdir sandbox_build_dir collectvdir buildresult
              publicdata st) as (Hc & Hk & Hw & _ & _ & _ & _ & _ & _ & _ & _ & _ & _ & Hl).
  fold st' in Hc, Hk, Hw, Hl. repeat apply conj; try done.
  unfold get_extract_key. by rewrite Hk, Hw.
Qed.

(** X4. A metadata accessor that raises leaves the handle, the artifact
    cache and the filesystem as it found them: a memo field is assigned
    only once the whole document has been read. *)
Theorem failed_accessor_keeps_handle (acc : Accessor) (e : Error) st :
  (call acc st).1 = Raise e →
  self (after st acc) = self st ∧
  artifacts (after st acc) = artifacts st ∧
  disk (after st acc) = disk st.
Proof.
  intros Hraise.
  destruct (after_cases acc st) as [-> | [-> | (v & _ & _ & Hv & _)]];
    [done | done | congruence].
Qed.

(** X5. On a handle whose artifact is not in the cache every metadata
    accessor without a memo raises [ArtifactError], [load_build_result()]
    included, whose default is for a missing file only; nothing is handed to
    the loader. *)
Theorem accessor_without_artifact (acc : Accessor) st :
  root_not_found st →
  memo acc (self st) = None →
  call acc st = (Raise ArtifactError, st).
Proof.
  intros (ref & Hname & Hmiss) Hmemo. rewrite call_run, Hmemo.
  unfold read_through.
  assert ((_get_subdirectory "meta" None st).1 = Raise ArtifactError) as ->.
  { unfold _get_subdirectory, _get_directory, get_artifact_directory,
      mbind, M_bind, gets, lift; simpl. rewrite Hname; simpl.
    destruct Hmiss as [-> | (d & -> & Hm)]; simpl; [done|].
    unfold open_directory. by rewrite Hm. }
  done.
Qed.

Lemma buildtree_exists_run st :
  buildtree_exists st
    = (match (_get_directory None st).1 with
       | Ok root => Ok (_exists root "buildtree")
       | Raise e => Raise e
       end, st).
Proof.
  unfold buildtree_exists, mbind, M_bind, mret, M_ret.
  rewrite (_get_directory_run st). by destruct (_get_directory None st).1.
Qed.

Lemma cached_logs_state st : (cached_logs st).2 = st.
Proof.
  unfold cached_logs, mbind, M_bind, gets, lift, mret, M_ret; simpl.
  destruct (_cached (_element (self st))); simpl; [|done].
  rewrite (_get_subdirectory_run "logs" st).
  by destruct (_get_subdirectory "logs" None st).1.
Qed.

(** X6. The checks and the directory getters change nothing, whether they
    return or raise: [cached()], [cached_logs()], [buildtree_exists()],
    [get_files()] and [get_buildtree()] leave the handle, the cache, the
    filesystem and the record of loads as they find them. *)
Theorem checks_change_nothing st :
  (cached st).2 = st ∧
  (cached_logs st).2 = st ∧
  (buildtree_exists st).2 = st ∧
  (get_files st).2 = st ∧
  (get_buildtree st).2 = st.
Proof.
  repeat apply conj.
  - apply cached_state.
  - apply cached_logs_state.
  - by rewrite buildtree_exists_run.
  - unfold get_files. by rewrite _get_subdirectory_run.
  - unfold get_buildtree. by rewrite _get_subdirectory_run.
Qed.

(** X7. [cache()] on a root directory that has a directory [artifact]
    already raises at its first [os.mkdir] and changes nothing. *)
Theorem cache_existing_rootdir rootdir sandbox_build_dir collectvdir
    buildresult publicdata st :
  is_Some (disk st !! os_path_join rootdir "artifact") →
  cache rootdir sandbox_build_dir collectvdir buildresult publicdata st
    = (Raise IOFailed, st).
Proof.
  intros [files Hdir]. unfold cache.
  rewrite (bind_run _ _ st (self st) st) by done. cbv zeta.
  apply bind_raise. unfold os_mkdir. by rewrite Hdir.
Qed.

(** What [commit] binds and what it leaves. *)
Lemma commit_refnames_other element (strong weak : string) refnames
    (index : gmap string Digest) tree (ref : string) :
  mapM_result (get_artifact_name element)
    (_deduplicate [Some strong; Some weak]) = Ok refnames →
  ref ≠ refname element strong → ref ≠ refname element weak →
  foldr (λ r acc, <[r := tree]> acc) index refnames !! ref = index !! ref.
Proof.
  unfold _deduplicate. simpl.
  destruct (decide (Some weak ∈ [Some strong])) as [Hin|Hnin]; simpl;
    intros [= <-] Hs Hw; simpl.
  - by rewrite lookup_insert_ne.
  - by rewrite !lookup_insert_ne.
Qed.

Lemma assembledir_ne_logsdir rootdir :
  os_path_join rootdir "artifact" ≠ logsdir rootdir.
Proof.
  unfold logsdir, os_path_join. intros Heq.
  apply (f_equal length) in Heq. rewrite !length_app in Heq. simpl in Heq. lia.
Qed.

Lemma assembledir_ne_metadir rootdir :
  os_path_join rootdir "artifact" ≠ metadir rootdir.
Proof.
  unfold metadir, os_path_join. intros Heq.
  apply (f_equal length) in Heq. rewrite !length_app in Heq. simpl in Heq. lia.
Qed.

(** A successful [cache()], in full: as [cache_Ok], with the files of the
    real [logs] directory, what is left on the filesystem, and the
    references that are not those of the two keys. *)
Lemma cache_Ok_full rootdir sandbox_build_dir collectvdir buildresult
    publicdata st n st' :
  cache rootdir sandbox_build_dir collectvdir buildresult publicdata st
    = (Ok n, st') →
  ∃ strong weak logfiles,
    let metafiles := meta_documents (self st) buildresult publicdata in
    let root := assembled sandbox_build_dir collectvdir metafiles logfiles in
    _cache_key (self st) = Some strong ∧
    _weak_cache_key (self st) = Some weak ∧
    expected_logfiles st = Some logfiles ∧
    disk st !! os_path_join rootdir "artifact" = None ∧
    disk st' !! os_path_join rootdir "artifact" = Some ∅ ∧
    disk st' !! logsdir rootdir = Some logfiles ∧
    cas (artifacts st')
      = serialize root (serialize root
          (import_real_blobs logfiles
             (import_real_blobs metafiles (cas (artifacts st))))) ∧
    (∀ key, key = strong ∨ key = weak →
            refs (artifacts st') !! refname (_element (self st)) key
              = Some (digest_of (BDir (root_manifest root)))) ∧
    (∀ ref, ref ≠ refname (_element (self st)) strong →
            ref ≠ refname (_element (self st)) weak →
            refs (artifacts st') !! ref = refs (artifacts st) !! ref).
Proof.
  intros H. unfold cache in H.
  apply bind_Ok in H as (a & s0 & Ha & H). apply gets_Ok in Ha as [-> ->].
  cbv zeta in H.
  apply bind_Ok in H as (u1 & s1 & Hmk1 & H).
  apply os_mkdir_Ok in Hmk1 as [Hfree1 ->].
  apply bind_Ok in H as (u2 & s2 & Hmk2 & H).
  apply os_mkdir_Ok in Hmk2 as [_ ->].
  apply bind_Ok in H as (u3 & s3 & Hmk3 & H).
  apply os_mkdir_Ok in Hmk3 as [_ ->].
  apply bind_Ok in H as (u4 & s4 & Hmod & H).
  apply modify_Ok in Hmod as ->.
  apply bind_Ok in H as (u5 & s5 & Hlog & H).
  fold (logsdir rootdir) in *. fold (metadir rootdir) in *.
  assert (∃ logfiles,
            expected_logfiles st = Some logfiles ∧
            disk s5 !! logsdir rootdir = Some logfiles ∧
            disk s5 !! metadir rootdir = Some ∅ ∧
            disk s5 !! os_path_join rootdir "artifact" = Some ∅ ∧
            self s5 = set_build_log_path
                        (os_path_join_file (logsdir rootdir) "build.log")
                        (self st) ∧
            artifacts s5 = artifacts st)
    as (logfiles & Hexp & Hlogs & Hmeta & Hasm & Hself & Hart).
  { unfold expected_logfiles.
    destruct (get_log_filename (_context (self st))) as [source|].
    - unfold shutil_copyfile in Hlog.
      apply bind_Ok in Hlog as (c & s' & Hread & Hwrite).
      apply read_file_Ok in Hread as [Hread ->].
      rewrite (write_file_run _ _ _ ∅) in Hwrite.
      2:{ st_simpl.
          rewrite lookup_insert_ne by apply not_eq_sym, logsdir_ne_metadir.
          apply lookup_insert_eq. }
      injection Hwrite as _ <-. exists {[ "build.log" := c ]}.
      cbn [disk set_disk set_self] in Hread. st_simpl.
      assert (disk st !! source.1 ≫= (.!! source.2) = Some c) as ->.
      { revert Hread. rewrite !lookup_insert.
        repeat case_decide; simpl; rewrite ?lookup_empty; done. }
      split; [done|]. split; [by rewrite lookup_insert_eq|].
      split.
      { rewrite lookup_insert_ne by apply logsdir_ne_metadir.
        apply lookup_insert_eq. }
      split; [|done].
      rewrite lookup_insert_ne by apply not_eq_sym, assembledir_ne_logsdir.
      rewrite lookup_insert_ne by apply not_eq_sym, assembledir_ne_metadir.
      rewrite lookup_insert_ne by apply not_eq_sym, assembledir_ne_logsdir.
      apply lookup_insert_eq.
    - apply mret_Ok in Hlog as [_ ->]. exists ∅. st_simpl.
      split; [done|]. split.
      { rewrite lookup_insert_ne by apply not_eq_sym, logsdir_ne_metadir.
        apply lookup_insert_eq. }
      split; [apply lookup_insert_eq|]. split; [|done].
      rewrite lookup_insert_ne by apply not_eq_sym, assembledir_ne_metadir.
      rewrite lookup_insert_ne by apply not_eq_sym, assembledir_ne_logsdir.
      apply lookup_insert_eq. }
  clear Hlog.
  apply bind_Ok in H as (element & s6 & He & H).
  apply gets_Ok in He as [-> ->].
  unfold _yaml_dump, os_path_join_file in H.
  rewrite (bind_run _ _ _ _ _ (write_file_run _ _ _ _ _ Hmeta)) in H.
  do 5 rewrite (bind_run _ _ _ _ _
                  (write_file_run _ _ _ _ _ (lookup_set_disk_eq _ _ _))) in H.
  rewrite (bind_run _ _ _ _ _
             (import_files_real_run _ _ _ _ _ (lookup_set_disk_eq _ _ _))) in H.
  match type of H with
  | (import_files_real _ _ _ ≫= _) ?s = _ =>
      assert (disk s !! logsdir rootdir = Some logfiles) as Hlogs';
      [|assert (disk s !! os_path_join rootdir "artifact" = Some ∅) as Hasm']
  end.
  { st_simpl.
    rewrite !lookup_insert_ne by apply not_eq_sym, logsdir_ne_metadir.
    exact Hlogs. }
  { st_simpl.
    rewrite !lookup_insert_ne by apply not_eq_sym, assembledir_ne_metadir.
    exact Hasm. }
  rewrite (bind_run _ _ _ _ _ (import_files_real_run _ _ _ _ _ Hlogs')) in H.
  apply bind_Ok in H as (size & s7 & Hsize & H).
  unfold assemble_get_size, assemble_get_digest in Hsize.
  apply bind_Ok in Hsize as (digest & s8 & Hdigest & Hsize).
  apply bind_Ok in Hdigest as (u6 & s9 & Hmod & Hdigest).
  apply modify_Ok in Hmod as ->. apply mret_Ok in Hdigest as [-> ->].
  apply bind_Ok in Hsize as (objects & s10 & Hobj & Hsize).
  apply gets_Ok in Hobj as [-> ->]. apply lift_Ok in Hsize as [_ ->].
  apply bind_Ok in H as (u7 & s11 & Hcommit & H).
  apply mret_Ok in H as [_ ->].
  unfold commit, assemble_get_digest in Hcommit.
  apply bind_Ok in Hcommit as (refnames & s12 & Hnames & Hcommit).
  apply lift_Ok in Hnames as [Hnames ->].
  apply bind_Ok in Hcommit as (tree & s13 & Htree & Hcommit).
  apply bind_Ok in Htree as (u8 & s14 & Hmod & Htree).
  apply modify_Ok in Hmod as ->. apply mret_Ok in Htree as [-> ->].
  apply modify_Ok in Hcommit as ->.
  pose proof Hnames as Hnames'.
  apply commit_refnames in Hnames as (strong & weak & Hstrong & Hweak & Hrefs).
  rewrite Hstrong, Hweak in Hnames'.
  exists strong, weak, logfiles. cbv zeta.
  split; [done|]. split; [done|]. split; [done|]. split; [done|].
  split; [exact Hasm'|]. split; [exact Hlogs'|]. split.
  { st_simpl. rewrite Hart, Hself. reflexivity. }
  split.
  - intros key Hkey. st_simpl. rewrite Hself. rewrite Hself in Hrefs.
    exact (Hrefs _ _ key Hkey).
  - intros ref Hs Hw. st_simpl. rewrite Hart.
    rewrite Hself in Hnames'.
    exact (commit_refnames_other _ _ _ _ _ _ _ Hnames' Hs Hw).
Qed.

Lemma _get_directory_key (key : string) st root :
  refs (artifacts st) !! refname (_element (self st)) key = Some (vd_digest root) →
  get_manifest (cas (artifacts st)) (vd_digest root) = Ok (vd_index root) →
  _get_directory (Some key) st = (Ok root, st).
Proof.
  intros Href Hm.
  unfold _get_directory, get_artifact_directory, get_artifact_name, resolve,
    open_directory, mbind, M_bind, gets, lift; simpl.
  fold (refname (_element (self st)) key). rewrite Href; simpl.
  rewrite Hm; simpl. by destruct root.
Qed.

Lemma same_handle_refname st st' key :
  same_handle st st' →
  refname (_element (self st')) key = refname (_element (self st)) key.
Proof.
  intros (_ & _ & _ & _ & _ & _ & _ & Hp & Hn & _). unfold refname.
  by rewrite Hp, Hn.
Qed.

(** A successful [cache()]: where the root of the committed artifact is
    found. *)
Lemma cache_committed rootdir sandbox_build_dir collectvdir buildresult
    publicdata st n st' :
  cache rootdir sandbox_build_dir collectvdir buildresult publicdata st
    = (Ok n, st') →
  ∃ strong weak logfiles,
    let metafiles := meta_documents (self st) buildresult publicdata in
    let root := assembled sandbox_build_dir collectvdir metafiles logfiles in
    let root_vdir :=
      mkVDir (digest_of (BDir (root_manifest root))) (root_manifest root) in
    _cache_key (self st) = Some strong ∧
    _weak_cache_key (self st) = Some weak ∧
    expected_logfiles st = Some logfiles ∧
    cas (artifacts st')
      = serialize root (serialize root
          (import_real_blobs logfiles
             (import_real_blobs metafiles (cas (artifacts st))))) ∧
    _get_directory (Some strong) st' = (Ok root_vdir, st') ∧
    _get_directory (Some weak) st' = (Ok root_vdir, st') ∧
    _get_directory None st' = (Ok root_vdir, st').
Proof.
  intros Hcache.
  pose proof (cache_same_handle rootdir sandbox_build_dir collectvdir
                buildresult publicdata st) as Hsame.
  rewrite Hcache in Hsame. simpl in Hsame.
  apply cache_Ok_full in Hcache
    as (strong & weak & logfiles & Hs & Hw & Hexp & _ & _ & _ & Hcas & Hrefs & _).
  cbv zeta in Hcas, Hrefs.
  exists strong, weak, logfiles. cbv zeta.
  split; [done|]. split; [done|]. split; [done|]. split; [done|].
  assert (∀ key, key = strong ∨ key = weak →
                 _get_directory (Some key) st'
                 = (Ok (mkVDir (digest_of (BDir (root_manifest
                          (assembled sandbox_build_dir collectvdir
                             (meta_documents (self st) buildresult publicdata)
                             logfiles))))
                       (root_manifest
                          (assembled sandbox_build_dir collectvdir
                             (meta_documents (self st) buildresult publicdata)
                             logfiles))), st')) as Hkey.
  { intros key Hor. apply _get_directory_key; cbn [vd_digest vd_index].
    - rewrite (same_handle_refname _ _ _ Hsame). by apply Hrefs.
    - rewrite Hcas. apply get_manifest_stored, stored_serialize_root. }
  split; [apply Hkey; by left|]. split; [apply Hkey; by right|].
  assert (∃ key, get_extract_key (self st') = Some key ∧
                 (key = strong ∨ key = weak)) as (key & Hext & Hor).
  { destruct Hsame as (_ & Hk & Hwk & _). unfold get_extract_key.
    rewrite Hk, Hwk, Hs, Hw. destruct strong; simpl; eauto. }
  rewrite <-(Hkey key Hor).
  unfold _get_directory at 1 2, mbind, M_bind, gets. simpl. by rewrite Hext.
Qed.

(** X8. After a successful [cache()] on a handle with a strong and a weak
    key, the artifact is found under the strong key, under the weak key and
    under the extract key of the handle alike: the three resolve to one
    root directory. *)
Theorem cache_binds_both_keys rootdir sandbox_build_dir collectvdir buildresult
    publicdata st n st' (strong weak : string) :
  cache rootdir sandbox_build_dir collectvdir buildresult publicdata st
    = (Ok n, st') →
  _cache_key (self st) = Some strong →
  _weak_cache_key (self st) = Some weak →
  ∃ root,
    _get_directory (Some strong) st' = (Ok root, st') ∧
    _get_directory (Some weak) st' = (Ok root, st') ∧
    _get_directory None st' = (Ok root, st').
Proof.
  intros (s & w & logfiles & Hs & Hw & _ & _ & H1 & H2 & H3)%cache_committed
    Hstrong Hweak.
  assert (s = strong) as -> by congruence.
  assert (w = weak) as -> by congruence.
  by eexists.
Qed.

(** X9. A successful [cache()] binds the references of its two keys and no
    other: every other reference resolves after it as it did before. *)
Theorem cache_leaves_other_references rootdir sandbox_build_dir collectvdir
    buildresult publicdata st n st' (strong weak ref : string) :
  cache rootdir sandbox_build_dir collectvdir buildresult publicdata st
    = (Ok n, st') →
  _cache_key (self st) = Some strong →
  _weak_cache_key (self st) = Some weak →
  ref ≠ refname (_element (self st)) strong →
  ref ≠ refname (_element (self st)) weak →
  resolve (refs (artifacts st')) ref = resolve (refs (artifacts st)) ref.
Proof.
  intros (s & w & logfiles & Hs & Hw & _ & _ & _ & _ & _ & _ & Hother)
    %cache_Ok_full Hstrong Hweak Hne1 Hne2.
  unfold resolve. rewrite Hother; [done| |]; congruence.
Qed.

(** X10. After a successful [cache()], [buildtree_exists()] tells whether
    a sandbox build directory was given to it. *)
Theorem cache_then_buildtree_exists rootdir sandbox_build_dir collectvdir
    buildresult publicdata st n st' :
  cache rootdir sandbox_build_dir collectvdir buildresult publicdata st
    = (Ok n, st') →
  buildtree_exists st'
    = (Ok (bool_decide (is_Some sandbox_build_dir)), st').
Proof.
  intros (strong & weak & logfiles & _ & _ & _ & _ & _ & _ & Hroot)
    %cache_committed. cbv zeta in Hroot.
  rewrite buildtree_exists_run, Hroot. cbn [fst]. f_equal. f_equal.
  unfold _exists. cbn [vd_index]. unfold root_manifest.
  destruct (assembled_lookup sandbox_build_dir collectvdir
              (meta_documents (self st) buildresult publicdata) logfiles)
    as (_ & _ & _ & Hbuildtree & _).
  rewrite lookup_fmap, Hbuildtree.
  apply bool_decide_ext. by rewrite !fmap_is_Some.
Qed.

(** X11. A second [cache()] on the root directory of a successful one
    raises and changes nothing: the directory [artifact] is there. *)
Theorem cache_twice rootdir sandbox_build_dir collectvdir buildresult
    publicdata st n st' sandbox_build_dir' collectvdir' buildresult'
    publicdata' :
  cache rootdir sandbox_build_dir collectvdir buildresult publicdata st
    = (Ok n, st') →
  cache rootdir sandbox_build_dir' collectvdir' buildresult' publicdata' st'
    = (Raise IOFailed, st').
Proof.
  intros (s & w & logfiles & _ & _ & _ & _ & Hdir & _)%cache_Ok_full.
  unfold cache. rewrite (bind_run _ _ st' (self st') st') by done. cbv zeta.
  apply bind_raise. unfold os_mkdir. by rewrite Hdir.
Qed.

(** A directory of regular files is contained in a store that holds its
    manifest and the blob of each of its files. *)
Lemma contains_directory_flat (files : gmap string Content) objects with_files :
  stored (BDir (import_real_entries files)) objects →
  (∀ file c, files !! file = Some c → stored (BFile c) objects) →
  contains_directory objects (digest_of (BDir (import_real_entries files)))
    with_files = Ok true.
Proof.
  intros Hdir Hfiles. unfold contains_directory. simpl.
  rewrite (get_manifest_stored _ _ Hdir).
  assert (∀ ne, ne ∈ entries (import_real_entries files) →
                ∃ c, ne.2 = FileEntry (digest_of (BFile c)) false ∧
                     stored (BFile c) objects) as Hall.
  { intros [file entry]. unfold entries. rewrite merge_sort_Permutation.
    rewrite elem_of_map_to_list. unfold import_real_entries.
    rewrite lookup_fmap. destruct (files !! file) as [c|] eqn:Hfile; [|done].
    intros [= <-]. exists c. split; [done|]. by eapply Hfiles. }
  induction (entries (import_real_entries files)) as [|ne l IH]; [done|].
  simpl. destruct (Hall ne) as (c & -> & Hc); [by left|].
  unfold blob_present. rewrite (get_blob_stored _ _ Hc).
  destruct with_files; simpl; apply IH; intros ne' Hin; apply Hall; by right.
Qed.

Section AfterCommit.

Context {collision_free : Inj (=) (=) (digest_of : Blob → Digest)}.

(** After a successful [cache()] every child of the assembled directory is
    found under its name, with the index it was assembled with. *)
Lemma cache_subdirectory (child : string) (index : Manifest) rootdir
    sandbox_build_dir collectvdir buildresult publicdata st n st' logfiles :
  cache rootdir sandbox_build_dir collectvdir buildresult publicdata st
    = (Ok n, st') →
  expected_logfiles st = Some logfiles →
  assembled sandbox_build_dir collectvdir
    (meta_documents (self st) buildresult publicdata) logfiles !! child
    = Some index →
  _get_subdirectory child None st'
    = (Ok (mkVDir (digest_of (BDir index)) index), st').
Proof.
  intros (strong & weak & logfiles' & _ & _ & Hexp & Hcas & _ & _ & Hroot)
    %cache_committed Hexp' Hchild.
  cbv zeta in Hcas, Hroot. assert (logfiles' = logfiles) as -> by congruence.
  unfold _get_subdirectory, mbind, M_bind, gets, lift, mret, M_ret.
  rewrite Hroot. cbn [fst snd]. unfold descend. cbn [vd_index].
  unfold root_manifest at 1. rewrite lookup_fmap, Hchild.
  cbn [fmap option_fmap option_map]. unfold open_directory. rewrite Hcas.
  rewrite get_manifest_stored; [done|].
  apply stored_serialize_other. by eapply stored_serialize_child.
Qed.

(** What the store holds after a successful [cache()]. *)
Lemma cache_store rootdir sandbox_build_dir collectvdir buildresult publicdata
    st n st' logfiles :
  cache rootdir sandbox_build_dir collectvdir buildresult publicdata st
    = (Ok n, st') →
  expected_logfiles st = Some logfiles →
  (∀ child index,
     assembled sandbox_build_dir collectvdir
       (meta_documents (self st) buildresult publicdata) logfiles !! child
       = Some index →
     stored (BDir index) (cas (artifacts st'))) ∧
  (∀ file c,
     meta_documents (self st) buildresult publicdata !! file = Some c →
     stored (BFile c) (cas (artifacts st'))) ∧
  (∀ file c, logfiles !! file = Some c →
             stored (BFile c) (cas (artifacts st'))) ∧
  (∀ b, stored b (cas (artifacts st)) → stored b (cas (artifacts st'))).
Proof.
  intros (strong & weak & logfiles' & _ & _ & Hexp & Hcas & _)%cache_committed
    Hexp'.
  cbv zeta in Hcas. assert (logfiles' = logfiles) as -> by congruence.
  rewrite Hcas. repeat apply conj.
  - intros child index Hchild.
    apply stored_serialize_other. by eapply stored_serialize_child.
  - intros file c Hfile. do 2 apply stored_serialize_other.
    apply stored_import_real_blobs_other. by eapply stored_import_real_blobs.
  - intros file c Hfile. do 2 apply stored_serialize_other.
    by eapply stored_import_real_blobs.
  - intros b Hb. do 2 apply stored_serialize_other.
    by do 2 apply stored_import_real_blobs_other.
Qed.

(** X12. An artifact committed without a collected-files directory, or
    under a context that does not require artifact directories, is cached
    as soon as [cache()] has returned. *)
Theorem cache_then_cached rootdir sandbox_build_dir collectvdir buildresult
    publicdata st n st' :
  cache rootdir sandbox_build_dir collectvdir buildresult publicdata st
    = (Ok n, st') →
  collectvdir = None ∨ require_artifact_directories (_context (self st)) = false →
  cached st' = (Ok true, st').
Proof.
  intros Hcache Hpolicy.
  pose proof (cache_same_handle rootdir sandbox_build_dir collectvdir
                buildresult publicdata st) as Hsame.
  rewrite Hcache in Hsame. cbn [snd] in Hsame. destruct Hsame as (Hctx & _).
  destruct (cache_committed _ _ _ _ _ _ _ _ Hcache)
    as (strong & weak & logfiles & _ & _ & Hexp & _ & _ & _ & Hroot).
  cbv zeta in Hroot.
  destruct (cache_store _ _ _ _ _ _ _ _ _ Hcache Hexp)
    as (Hchildren & Hmetafiles & _ & _).
  destruct (assembled_lookup sandbox_build_dir collectvdir
              (meta_documents (self st) buildresult publicdata) logfiles)
    as (_ & Hmeta & Hfiles & _). cbv zeta in Hmeta, Hfiles.
  rewrite (right_id_L ∅ (∪)) in Hmeta.
  unfold cached, try_except, mbind, M_bind, gets, lift, mret, M_ret.
  rewrite Hroot. cbn [fst snd].
  unfold _get_child_digest, _exists. cbn [vd_index]. unfold root_manifest.
  rewrite !lookup_fmap, Hmeta, Hfiles. cbn [fmap option_fmap option_map].
  rewrite contains_directory_flat; [|by eapply Hchildren|done].
  cbn [negb]. rewrite Hctx.
  destruct Hpolicy as [-> | ->]; [done|].
  by destruct collectvdir.
Qed.

(** X13. When the element is cached, [cached_logs()] returns true as soon
    as [cache()] has returned, with or without a build log. *)
Theorem cache_then_cached_logs rootdir sandbox_build_dir collectvdir
    buildresult publicdata st n st' :
  cache rootdir sandbox_build_dir collectvdir buildresult publicdata st
    = (Ok n, st') →
  _cached (_element (self st)) = true →
  cached_logs st' = (Ok true, st').
Proof.
  intros Hcache Hcached.
  pose proof (cache_same_handle rootdir sandbox_build_dir collectvdir
                buildresult publicdata st) as Hsame.
  rewrite Hcache in Hsame. cbn [snd] in Hsame.
  destruct Hsame as (_&_&_&_&_&_&_&_&_&_& Hc &_).
  destruct (cache_committed _ _ _ _ _ _ _ _ Hcache)
    as (strong & weak & logfiles & _ & _ & Hexp & _).
  destruct (cache_store _ _ _ _ _ _ _ _ _ Hcache Hexp)
    as (Hchildren & _ & Hlogfiles & _).
  destruct (assembled_lookup sandbox_build_dir collectvdir
              (meta_documents (self st) buildresult publicdata) logfiles)
    as (Hlogs & _). cbv zeta in Hlogs. rewrite (right_id_L ∅ (∪)) in Hlogs.
  unfold cached_logs, mbind, M_bind, gets, lift, mret, M_ret.
  cbn [fst snd]. rewrite Hc, Hcached. cbn [negb].
  rewrite (cache_subdirectory _ _ _ _ _ _ _ _ _ _ _ Hcache Hexp Hlogs).
  cbn [fst snd _get_digest vd_digest]. unfold _get_digest. cbn [vd_digest].
  rewrite contains_directory_flat; [done|by eapply Hchildren|done].
Qed.

(** X14. The [logs/] directory of a committed artifact holds the build log
    of the context as [build.log], byte for byte, and nothing else; it is
    empty when the context names no log. *)
Theorem cache_logs_content rootdir sandbox_build_dir collectvdir buildresult
    publicdata st n st' :
  cache rootdir sandbox_build_dir collectvdir buildresult publicdata st
    = (Ok n, st') →
  ∃ log_vdir,
    _get_subdirectory "logs" None st' = (Ok log_vdir, st') ∧
    match get_log_filename (_context (self st)) with
    | None => vd_index log_vdir = ∅
    | Some source =>
        ∃ c,
          disk st !! source.1 ≫= (.!! source.2) = Some c ∧
          vd_index log_vdir
            = {[ "build.log" := FileEntry (digest_of (BFile c)) false ]} ∧
          get_blob (cas (artifacts st')) (digest_of (BFile c)) = Ok (BFile c)
    end.
Proof.
  intros Hcache.
  destruct (cache_committed _ _ _ _ _ _ _ _ Hcache)
    as (strong & weak & logfiles & _ & _ & Hexp & _).
  destruct (cache_store _ _ _ _ _ _ _ _ _ Hcache Hexp)
    as (_ & _ & Hlogfiles & _).
  destruct (assembled_lookup sandbox_build_dir collectvdir
              (meta_documents (self st) buildresult publicdata) logfiles)
    as (Hlogs & _). cbv zeta in Hlogs. rewrite (right_id_L ∅ (∪)) in Hlogs.
  eexists. split; [exact (cache_subdirectory _ _ _ _ _ _ _ _ _ _ _ Hcache Hexp Hlogs)|].
  cbn [vd_index]. unfold expected_logfiles in Hexp.
  destruct (get_log_filename (_context (self st))) as [source|].
  - destruct (disk st !! source.1 ≫= (.!! source.2)) as [c|]; [|done].
    simpl in Hexp. injection Hexp as <-. exists c. split; [done|]. split.
    + unfold import_real_entries. by rewrite map_fmap_singleton.
    + apply get_blob_stored. eapply Hlogfiles. apply lookup_singleton_eq.
  - injection Hexp as <-. unfold import_real_entries. apply fmap_empty.
Qed.

(** X15. After a successful [cache()], [get_files()] opens a directory with
    the entries of the collected-files directory, and [get_buildtree()] one
    with the entries of the sandbox build directory; each raises [NotFound]
    when no such directory was given. *)
Theorem cache_then_get_files rootdir sandbox_build_dir collectvdir buildresult
    publicdata st n st' :
  cache rootdir sandbox_build_dir collectvdir buildresult publicdata st
    = (Ok n, st') →
  get_files st'
    = (match collectvdir with
       | Some source =>
           Ok (mkVDir (digest_of (BDir (vd_index source))) (vd_index source))
       | None => Raise NotFound
       end, st') ∧
  get_buildtree st'
    = (match sandbox_build_dir with
       | Some source =>
           Ok (mkVDir (digest_of (BDir (vd_index source))) (vd_index source))
       | None => Raise NotFound
       end, st').
Proof.
  intros Hcache.
  destruct (cache_committed _ _ _ _ _ _ _ _ Hcache)
    as (strong & weak & logfiles & _ & _ & Hexp & _ & _ & _ & Hroot).
  cbv zeta in Hroot.
  destruct (assembled_lookup sandbox_build_dir collectvdir
              (meta_documents (self st) buildresult publicdata) logfiles)
    as (_ & _ & Hfiles & Hbuildtree & _). cbv zeta in Hfiles, Hbuildtree.
  assert (∀ child (given : option VDir),
            assembled sandbox_build_dir collectvdir
              (meta_documents (self st) buildresult publicdata) logfiles
              !! child = (λ source, vd_index source ∪ ∅) <$> given →
            _get_subdirectory child None st'
            = (match given with
               | Some source =>
                   Ok (mkVDir (digest_of (BDir (vd_index source)))
                         (vd_index source))
               | None => Raise NotFound
               end, st')) as Hsub.
  { intros child [source|] Hchild; simpl in Hchild.
    - rewrite (right_id_L ∅ (∪)) in Hchild.
      exact (cache_subdirectory _ _ _ _ _ _ _ _ _ _ _ Hcache Hexp Hchild).
    - unfold _get_subdirectory, mbind, M_bind, gets, lift, mret, M_ret.
      rewrite Hroot. cbn [fst snd]. unfold descend. cbn [vd_index].
      unfold root_manifest. by rewrite lookup_fmap, Hchild. }
  split; [exact (Hsub "files" collectvdir Hfiles)|].
  exact (Hsub "buildtree" sandbox_build_dir Hbuildtree).
Qed.

(** X16. A successful [cache()] takes nothing out of the store: every blob
    that could be read before it is read after it, with the same bytes. *)
Theorem cache_keeps_blobs rootdir sandbox_build_dir collectvdir buildresult
    publicdata st n st' (d : Digest) (b : Blob) :
  cache rootdir sandbox_build_dir collectvdir buildresult publicdata st
    = (Ok n, st') →
  get_blob (cas (artifacts st)) d = Ok b →
  get_blob (cas (artifacts st')) d = Ok b.
Proof.
  intros Hcache Hblob.
  destruct (cache_committed _ _ _ _ _ _ _ _ Hcache)
    as (strong & weak & logfiles & _ & _ & Hexp & _).
  destruct (cache_store _ _ _ _ _ _ _ _ _ Hcache Hexp) as (_ & _ & _ & Hkeep).
  assert (d = digest_of b ∧ stored b (cas (artifacts st))) as [-> Hstored].
  { unfold get_blob in Hblob. unfold stored.
    destruct (cas (artifacts st) !! d) as [[b'|]|] eqn:Hd; try done.
    case_decide as Heq; [|done]. injection Hblob as ->. by subst d. }
  by apply get_blob_stored, Hkeep.
Qed.

End AfterCommit.

(** *** Mappings built key by key *)

Lemma dict_get_dict_set (d : dict) (key key' : string) (v : Node) :
  dict_get (dict_set d key v) key'
  = if decide (key = key') then Some v else dict_get d key'.
Proof.
  induction d as [|[k w] d IH]; simpl.
  - by case_decide.
  - destruct (decide (k = key)) as [->|Hne]; simpl.
    + by case_decide.
    + rewrite IH. repeat case_decide; congruence.
Qed.

Lemma dict_set_keys (d : dict) (key : string) (v : Node) :
  (dict_set d key v).*1 = if decide (key ∈ d.*1) then d.*1 else (d.*1 ++ [key])%list.
Proof.
  induction d as [|[k w] d IH]; csimpl; [done|].
  destruct (decide (k = key)) as [->|Hne]; csimpl.
  - rewrite decide_True by (by left). done.
  - rewrite IH. destruct (decide (key ∈ d.*1)) as [Hin|Hnin].
    + rewrite decide_True by (by right). done.
    + rewrite decide_False; [done|]. rewrite elem_of_cons. by intros [?|?].
Qed.

Lemma dict_set_NoDup (d : dict) (key : string) (v : Node) :
  NoDup d.*1 → NoDup (dict_set d key v).*1.
Proof.
  intros Hnd. rewrite dict_set_keys. case_decide; [done|].
  apply NoDup_app. split; [done|]. split; [|apply NoDup_singleton].
  intros k Hk ->%list_elem_of_singleton. done.
Qed.

Lemma foldl_dict_set_NoDup (l : list (string * Node)) (d : dict) :
  NoDup d.*1 → NoDup (foldl (λ d kv, dict_set d kv.1 kv.2) d l).*1.
Proof.
  revert d. induction l as [|[k v] l IH]; intros d Hnd; [done|].
  simpl. by apply IH, dict_set_NoDup.
Qed.

Lemma foldl_dict_set_is_Some (l : list (string * Node)) (d : dict) (key : string) :
  is_Some (dict_get (foldl (λ d kv, dict_set d kv.1 kv.2) d l) key) ↔
  is_Some (dict_get d key) ∨ key ∈ l.*1.
Proof.
  revert d. induction l as [|[k v] l IH]; intros d; simpl.
  - rewrite elem_of_nil. tauto.
  - rewrite IH, dict_get_dict_set, elem_of_cons. case_decide; subst.
    + split; [intros _; by right; left | intros _; left; by eexists].
    + split; [intros [?|?]; auto | intros [?|[?|?]]; auto; congruence].
Qed.

Section CommittedDependencies.

Context {collision_free : Inj (=) (=) (digest_of : Blob → Digest)}.

(** X17. The two dependency documents of a committed artifact agree: every
    name that [get_metadata_workspaced_dependencies()] returns is a key of
    the mapping that [get_metadata_dependencies()] returns. *)
Theorem workspaced_dependencies_are_dependencies rootdir sandbox_build_dir
    collectvdir buildresult publicdata st n st' deps workspaced (dep : string) :
  cache rootdir sandbox_build_dir collectvdir buildresult publicdata st
    = (Ok n, st') →
  _metadata_dependencies (self st) = None →
  _metadata_workspaced_dependencies (self st) = None →
  (get_metadata_dependencies st').1 = Ok deps →
  (get_metadata_workspaced_dependencies st').1 = Ok workspaced →
  NStr dep ∈ workspaced →
  is_Some (dict_get deps dep).
Proof.
  intros Hcache Hm1 Hm2 Hdeps Hws Hin.
  pose proof (cache_then_call Dependencies
                (sanitize_dict (dict_of_list
                   (map (λ e, (dep_name e, py_str (dep_cache_key e)))
                        (dependencies (_element (self st))))))
                _ _ _ _ _ _ _ _ Hcache
                (f_equal (fmap VDependencies) Hm1) eq_refl) as Hcall1.
  apply (call_value Dependencies (VDependencies _)) in Hcall1.
  pose proof (cache_then_call WorkspacedDependencies
                [("workspaced-dependencies",
                  NList (map node_sanitize
                           (map (λ e, NStr (dep_name e))
                              (filter (λ e, dep_workspace e = true)
                                 (dependencies (_element (self st)))))))]
                _ _ _ _ _ _ _ _ Hcache
                (f_equal (fmap VWorkspacedDependencies) Hm2) eq_refl) as Hcall2.
  unfold parse, node_get_list in Hcall2. cbn [dict_get] in Hcall2.
  rewrite decide_True in Hcall2 by done. cbn [mbind result_bind] in Hcall2.
  rewrite !map_node_sanitize_NStr in Hcall2.
  apply (call_value WorkspacedDependencies (VWorkspacedDependencies _)) in Hcall2.
  rewrite Hdeps in Hcall1. rewrite Hws in Hcall2.
  injection Hcall1 as ->. injection Hcall2 as ->.
  apply list_elem_of_fmap in Hin as (e & [= ->] & He).
  apply list_elem_of_filter in He as [_ He].
  rewrite sanitize_dict_get by (apply foldl_dict_set_NoDup, NoDup_nil_2).
  apply fmap_is_Some. unfold dict_of_list.
  apply foldl_dict_set_is_Some. right.
  apply list_elem_of_fmap. exists (dep_name e, py_str (dep_cache_key e)).
  split; [done|]. apply list_elem_of_fmap. by exists e.
Qed.

End CommittedDependencies.

(** *** Optional fields of the build result *)

(** X18. Of the three fields of [build-result.yaml] only [success] is
    required: a document with [success] alone gives a result without
    description and detail, a document without [success] is a schema
    error. *)
Theorem load_build_result_fields st meta_vdir d x data :
  (_get_subdirectory "meta" None st).1 = Ok meta_vdir →
  vd_index meta_vdir !! "build-result.yaml" = Some (FileEntry d x) →
  get_blob (cas (artifacts st)) d = Ok (BFile (Document (NDict data))) →
  (∀ success,
     dict_get data "success" = Some (NBool success) →
     dict_get data "description" = None →
     dict_get data "detail" = None →
     (load_build_result st).1 = Ok (success, None, None)) ∧
  (dict_get data "success" = None →
   (load_build_result st).1 = Raise SchemaMismatch).
Proof.
  intros Hmeta Hentry Hblob.
  assert (call BuildResult st
          = match parse BuildResult data with
            | Ok v => (Ok v, log_load "build-result.yaml" st)
            | Raise e => (Raise e, log_load "build-result.yaml" st)
            end) as Hcall.
  { rewrite call_run. cbn [memo]. unfold read_through. rewrite Hmeta. cbv zeta.
    cbn [shortname]. unfold _objpath. rewrite Hentry.
    unfold os_path_exists. rewrite bool_decide_eq_true_2.
    2:{ unfold get_blob in Hblob.
        destruct (cas (artifacts st) !! d); [by eexists|done]. }
    unfold yaml_document. rewrite Hblob. cbn [mbind result_bind].
    by destruct (parse BuildResult data). }
  assert (∀ r, (call BuildResult st).1
               = match r with
                 | Ok v => Ok (VBuildResult v)
                 | Raise e => Raise e
                 end →
               (load_build_result st).1 = r) as Hvalue.
  { intros r. unfold call, mbind, M_bind, mret, M_ret.
    destruct (load_build_result st) as [[v|e] ?], r as [v'|e']; simpl;
      congruence. }
  split.
  - intros success Hs Hd Hdt. apply Hvalue. rewrite Hcall.
    unfold parse, node_get_bool, node_get_str_default_none.
    by rewrite Hs, Hd, Hdt.
  - intros Hs. apply Hvalue. rewrite Hcall.
    unfold parse, node_get_bool. by rewrite Hs.
Qed.

Section CommittedFiles.

Context {collision_free : Inj (=) (=) (digest_of : Blob → Digest)}.

(** X19. For an artifact committed with a collected-files directory, under
    a context that requires artifact directories, [cached()] after the
    commit is the answer of the store about the [files/] subtree alone, with
    or without file contents as the context and the element require; an
    error of that query is raised. *)
Theorem cache_then_cached_files rootdir sandbox_build_dir source buildresult
    publicdata st n st' :
  cache rootdir sandbox_build_dir (Some source) buildresult publicdata st
    = (Ok n, st') →
  require_artifact_directories (_context (self st)) = true →
  cached st'
    = (contains_directory (cas (artifacts st'))
         (digest_of (BDir (vd_index source))) (require_files st), st').
Proof.
  intros Hcache Hdirs.
  pose proof (cache_same_handle rootdir sandbox_build_dir (Some source)
                buildresult publicdata st) as Hsame.
  rewrite Hcache in Hsame. cbn [snd] in Hsame.
  destruct Hsame as (Hctx &_&_&_&_&_&_&_&_&_&_& Hreq &_).
  destruct (cache_committed _ _ _ _ _ _ _ _ Hcache)
    as (strong & weak & logfiles & _ & _ & Hexp & _ & _ & _ & Hroot).
  cbv zeta in Hroot.
  destruct (cache_store _ _ _ _ _ _ _ _ _ Hcache Hexp)
    as (Hchildren & Hmetafiles & _ & _).
  destruct (assembled_lookup sandbox_build_dir (Some source)
              (meta_documents (self st) buildresult publicdata) logfiles)
    as (_ & Hmeta & Hfiles & _). cbv zeta in Hmeta, Hfiles.
  rewrite (right_id_L ∅ (∪)) in Hmeta. cbn [fmap option_fmap option_map] in Hfiles.
  rewrite (right_id_L ∅ (∪)) in Hfiles.
  unfold cached, try_except, mbind, M_bind, gets, lift, mret, M_ret.
  rewrite Hroot. cbn [fst snd].
  unfold _get_child_digest, _exists. cbn [vd_index]. unfold root_manifest.
  rewrite !lookup_fmap, Hmeta, Hfiles. cbn [fmap option_fmap option_map].
  rewrite contains_directory_flat; [|by eapply Hchildren|done].
  cbn [negb]. rewrite bool_decide_eq_true_2 by (by eexists).
  rewrite Hctx, Hdirs, Hreq. unfold require_files.
  by destruct (contains_directory _ _ _) as [[|]|].
Qed.

End CommittedFiles.

End Properties.

(** * The properties at work on the example installation *)

Import Examples.

Global Existing Instance example_collaborators.

Global Instance example_digest_inj :
  Inj (=) (=) (digest_of (HashAlgorithm := example_digest)).
Proof.
  intros x y Heq. unfold digest_of, example_digest in Heq.
  injection Heq as Heq. by apply (inj encode).
Qed.

Lemma example_cache_run :
  cache (HA := example_digest) ["tmp"] None (Some hello_vdir) example_result
    example_public st_before
  = (Ok 0%N, st_committed).
Proof.
  assert ((cache (HA := example_digest) ["tmp"] None (Some hello_vdir)
             example_result example_public st_before).1 = Ok 0%N) as Hrun
    by (vm_compute; reflexivity).
  unfold st_committed. rewrite <-Hrun.
  by destruct (cache _ _ _ _ _ _).
Qed.

(** The checks of [cached()] on a cache without the reference, on a corrupt
    root and on an unreadable root. *)
Lemma cached_error_propagation_witness :
  cached (HA := example_digest) st0 = (Ok false, st0) ∧
  cached (HA := example_digest) st_corrupt = (Raise Malformed, st_corrupt) ∧
  cached (HA := example_digest) st_unreadable = (Raise IOFailed, st_unreadable).
Proof.
  split; [|split].
  - apply (proj1 (cached_error_propagation st0)).
    exists "proj/hello.bst/aaaa". split; [reflexivity|]. left. reflexivity.
  - apply (proj2 (cached_error_propagation st_corrupt) Malformed); [by left|].
    left. exists "proj/hello.bst/aaaa", bad_digest.
    split; [reflexivity|]. split; [reflexivity|]. vm_compute. reflexivity.
  - apply (proj2 (cached_error_propagation st_unreadable) IOFailed); [by right|].
    left. exists "proj/hello.bst/aaaa", bad_digest.
    split; [reflexivity|]. split; [reflexivity|]. vm_compute. reflexivity.
Defined.


(** The keys are read once, whatever is called in between. *)
Lemma memoized_accessor_parses_once_witness :
  let st' :=
    after_all (HA := example_digest) (after (HA := example_digest) st_old Keys)
      [Dependencies; BuildResult; Keys] in
  call (HA := example_digest) Keys st' = (Ok (VKeys ("aaaa", "bbbb")), st').
Proof.
  refine (proj1 (proj1 (memoized_accessor_parses_once (HA := example_digest)
                          Keys st_old (VKeys ("aaaa", "bbbb")) _)
                   eq_refl [Dependencies; BuildResult; Keys])).
  vm_compute. reflexivity.
Defined.

(** Against C4 as the specification words it: [load_build_result()] parses
    its file at each of two calls. *)
Lemma load_build_result_parses_twice :
  ¬ parses_at_most_once (HA := example_digest) BuildResult.
Proof.
  intros Hspec.
  specialize (Hspec st_failed [BuildResult; BuildResult] eq_refl).
  revert Hspec. vm_compute. lia.
Qed.

(** The commit of the example writes the six documents. *)
Lemma cache_emits_six_documents_witness :
  ∃ metafiles,
    disk st_committed !! metadir ["tmp"] = Some metafiles ∧
    ∀ file, is_Some (metafiles !! file) ↔ file ∈ well_known_files.
Proof.
  destruct (cache_emits_six_documents (HA := example_digest) _ _ _ _ _ _ _ _
              example_cache_run)
    as (metafiles & meta_vdir & Hdisk & Hfiles & _).
  exists metafiles. split; [exact Hdisk | exact Hfiles].
Defined.

(** Against C5 as the specification words it: the real [meta] directory
    does not hold five documents. *)
Lemma cache_does_not_emit_five_documents :
  ¬ ∃ metafiles,
      disk st_committed !! metadir ["tmp"] = Some metafiles ∧
      size metafiles = 5.
Proof.
  intros (metafiles & Hdisk & Hsize).
  assert (disk st_committed !! metadir ["tmp"]
          = Some (meta_documents (self st_before) example_result example_public))
    as Hsix.
  { by destruct (cache_Ok (HA := example_digest) _ _ _ _ _ _ _ _
                   example_cache_run) as (? & ? & ? & _ & _ & _ & _ & ? & _). }
  rewrite Hsix in Hdisk. injection Hdisk as <-.
  revert Hsize. vm_compute. discriminate.
Qed.

(** C6, counterexample.  A handle reads the keys of the artifact it finds,
    which record another weak key than its own; it then commits an
    artifact with its own two keys, and [get_metadata_keys()] still returns
    the keys read before the commit. *)
Lemma cache_then_read_stale_memo :
  let st := after (HA := example_digest) st_stale Keys in
  let run :=
    cache (HA := example_digest) ["tmp"] None None example_result
      example_public st in
  _cache_key (self st) = Some "aaaa" ∧
  _weak_cache_key (self st) = Some "bbbb" ∧
  run.1 = Ok 0%N ∧
  (get_metadata_keys (HA := example_digest) run.2).1 = Ok ("aaaa", "cccc") ∧
  (get_metadata_keys (HA := example_digest) run.2).1 ≠ Ok ("aaaa", "bbbb").
Proof.
  assert ((get_metadata_keys (HA := example_digest)
             (cache (HA := example_digest) ["tmp"] None None example_result
                example_public (after (HA := example_digest) st_stale Keys)).2).1
          = Ok ("aaaa", "cccc")) as Hkeys by (vm_compute; reflexivity).
  cbv zeta. repeat apply conj.
  - vm_compute. reflexivity.
  - vm_compute. reflexivity.
  - vm_compute. reflexivity.
  - exact Hkeys.
  - rewrite Hkeys. discriminate.
Qed.

(** The keys, and the build result, read back from the commit of the
    example through a fresh handle that has the weak key only. *)
Lemma cache_then_read_witness :
  let st_a :=
    set_self (λ _, __init__ elt ctx None (Some "bbbb")) st_committed in
  (get_metadata_keys (HA := example_digest) st_a).1 = Ok ("aaaa", "bbbb") ∧
  (load_build_result (HA := example_digest) st_a).1 = Ok example_result.
Proof.
  destruct (cache_then_read (HA := example_digest)
              (__init__ elt ctx None (Some "bbbb")) "bbbb" "aaaa" "bbbb"
              ["tmp"] None (Some hello_vdir) example_result example_public
              st_before 0%N st_committed example_cache_run eq_refl eq_refl
              eq_refl eq_refl eq_refl (or_intror eq_refl))
    as (Hkeys & Hresult & _).
  split; [exact (Hkeys eq_refl) | exact Hresult].
Defined.

(** The extract key of a handle with two keys, and of one whose strong key
    is the empty string. *)
Lemma get_extract_key_strong_else_weak_witness :
  get_extract_key (__init__ elt ctx (Some "aaaa") (Some "bbbb")) = Some "aaaa" ∧
  get_extract_key empty_strong = Some "bbbb".
Proof.
  split.
  - apply (proj1 (get_extract_key_strong_else_weak
                    (__init__ elt ctx (Some "aaaa") (Some "bbbb"))) "aaaa");
      [reflexivity | discriminate].
  - apply (proj2 (get_extract_key_strong_else_weak empty_strong)).
    right. reflexivity.
Defined.

(** Against C7 as the specification words it: the strong key is not
    returned whenever it is set. *)
Lemma get_extract_key_empty_strong_key :
  ¬ ∀ a : Artifact,
      (∀ key, _cache_key a = Some key → get_extract_key a = Some key) ∧
      (_cache_key a = None → get_extract_key a = _weak_cache_key a).
Proof.
  intros Hspec.
  destruct (Hspec empty_strong) as [Hstrong _].
  specialize (Hstrong EmptyString eq_refl). discriminate Hstrong.
Qed.

(** Against C8 as the specification words it: [cached_logs()] does not
    ask for the logs alone. *)
Lemma cached_logs_needs_cached_element :
  ¬ ∀ st : State,
      (cached_logs (HA := example_digest) st).1 = Ok true ↔
      ∃ root log_vdir,
        root_resolves (HA := example_digest) st root ∧
        descend (HA := example_digest) (cas (artifacts st)) root "logs"
          = Ok log_vdir ∧
        present (HA := example_digest) st (vd_digest log_vdir) true.
Proof.
  intros Hspec. destruct (Hspec st_uncached) as [_ Hlogs].
  assert ((cached_logs (HA := example_digest) st_uncached).1 = Ok true)
    as Hfalse; [|vm_compute in Hfalse; discriminate Hfalse].
  apply Hlogs.
  assert (match (_get_subdirectory (HA := example_digest) "logs" None
                   st_uncached).1 with
          | Ok log_vdir =>
              contains_directory (HA := example_digest)
                (cas (artifacts st_uncached)) (vd_digest log_vdir) true
          | Raise e => Raise e
          end = Ok true) as Hthere by (vm_compute; reflexivity).
  destruct (_get_subdirectory "logs" None st_uncached).1 as [log_vdir|] eqn:Hsub;
    [|discriminate Hthere].
  apply _get_subdirectory_Ok in Hsub as (root & Hroot & Hdescend).
  exists root, log_vdir. split; [exact Hroot|]. split; [exact Hdescend|].
  exact Hthere.
Qed.

(** The root committed in the example has [files] and no [buildtree]. *)
Lemma cache_root_children_witness :
  ∃ root,
    (_get_directory (HA := example_digest) None st_committed).1 = Ok root ∧
    is_Some (vd_index root !! "files") ∧
    ¬ is_Some (vd_index root !! "buildtree").
Proof.
  destruct (cache_root_children (HA := example_digest) _ _ _ _ _ _ _ _
              example_cache_run)
    as (root & Hroot & _ & _ & Hfiles & Hbuildtree & _).
  exists root. split; [exact Hroot|]. split.
  - apply Hfiles. by eexists.
  - rewrite Hbuildtree. by intros [? ?].
Defined.

(** Reading the keys leaves the cache and the other memo fields alone. *)
Lemma metadata_accessor_frame_witness :
  memo Workspaced (self (after (HA := example_digest) st_old Keys))
    = memo Workspaced (self st_old) ∧
  artifacts (after (HA := example_digest) st_old Keys) = artifacts st_old.
Proof.
  destruct (metadata_accessor_frame (HA := example_digest) Keys st_old eq_refl)
    as (Hothers & _ & _ & _ & _ & Hartifacts & _).
  split; [by apply Hothers | exact Hartifacts].
Defined.

(** ** Scenarios of the specification *)

(** Commit then resolve: the artifact is cached, under the strong and under
    the weak key, and its keys are the committed ones. *)
Example commit_then_resolve :
  (cached (HA := example_digest) st_committed).1 = Ok true ∧
  same_root st_committed "aaaa" "bbbb" = true ∧
  (cached_logs (HA := example_digest) st_committed).1 = Ok true.
Proof. repeat apply conj; vm_compute; reflexivity. Qed.

(** Partial materialization: with the blob of the file gone the manifests
    are all there, the files are not, and the artifact is cached exactly
    under a policy that does not ask for file contents. *)
Example partial_materialization :
  root_contains st_partial false = Ok true ∧
  root_contains st_partial true = Ok false ∧
  (cached (HA := example_digest) (set_self (with_policy true true) st_partial)).1
    = Ok false ∧
  (cached (HA := example_digest) (set_self (with_policy true false) st_partial)).1
    = Ok true ∧
  (cached (HA := example_digest) (set_self (with_policy false true) st_partial)).1
    = Ok true.
Proof. repeat apply conj; vm_compute; reflexivity. Qed.

(** Missing build result: the default, and no error, when [meta/] lists
    the file and the store has no object for it; for an older artifact
    whose [meta/] does not list the file the answer is that of [_objpath],
    the default when it hands out a path and its error when it raises. *)
Example missing_build_result :
  (load_build_result (HA := example_digest) st_result_gone).1
    = Ok (true, Some "succeeded", None) ∧
  (load_build_result (HA := example_digest) (CO := lenient_collaborators)
     st_old).1
    = Ok (true, Some "succeeded", None) ∧
  (load_build_result (HA := example_digest) (CO := example_collaborators)
     st_old).1
    = Raise NotFound.
Proof. repeat apply conj; vm_compute; reflexivity. Qed.

(** A description with white space at both ends is read back as the YAML
    layer hands it back: without the white space under the collaborators
    of the example, unchanged under the others. *)
Example spaced_description :
  (load_build_result (HA := example_digest) (CO := example_collaborators)
     (cache (HA := example_digest) ["tmp"] None None spaced_result
        example_public st0).2).1
    = Ok (false, Some "spaced", Some "boom") ∧
  (load_build_result (HA := example_digest) (CO := lenient_collaborators)
     (cache (HA := example_digest) ["tmp"] None None spaced_result
        example_public st0).2).1
    = Ok spaced_result.
Proof. repeat apply conj; vm_compute; reflexivity. Qed.

(** ** Instances of the further properties *)

Lemma example_plain_run :
  cache (HA := example_digest) ["tmp"] None None example_result example_public
    st0
  = (Ok 0%N, st_plain).
Proof.
  assert ((cache (HA := example_digest) ["tmp"] None None example_result
             example_public st0).1 = Ok 0%N) as Hrun
    by (vm_compute; reflexivity).
  unfold st_plain. rewrite <-Hrun.
  by destruct (cache _ _ _ _ _ _).
Qed.

Lemma example_nolog_run :
  cache (HA := example_digest) ["tmp"] None None example_result example_public
    st_nolog
  = (Raise IOFailed,
     (cache (HA := example_digest) ["tmp"] None None example_result
        example_public st_nolog).2).
Proof.
  assert ((cache (HA := example_digest) ["tmp"] None None example_result
             example_public st_nolog).1 = Raise IOFailed) as Hrun
    by (vm_compute; reflexivity).
  rewrite <-Hrun. by destruct (cache _ _ _ _ _ _).
Qed.

(** A commit that fails on the missing build log has made directories on
    the disk and bound no reference. *)
Lemma cache_failure_binds_nothing_witness :
  refs (artifacts (cache (HA := example_digest) ["tmp"] None None
                     example_result example_public st_nolog).2)
    = refs (artifacts st_nolog).
Proof.
  exact (cache_failure_binds_nothing (HA := example_digest) _ _ _ _ _ _ _ _
           example_nolog_run).
Defined.

(** Keys read before a commit are the keys answered after it. *)
Lemma cache_keeps_memo_witness :
  let st := after (HA := example_digest) st_old Keys in
  let st' :=
    (cache (HA := example_digest) ["tmp"] None None example_result
       example_public st).2 in
  call (HA := example_digest) Keys st' = (Ok (VKeys ("aaaa", "bbbb")), st').
Proof.
  intros st.
  apply (cache_keeps_memo (HA := example_digest) Keys (VKeys ("aaaa", "bbbb"))).
  vm_compute. reflexivity.
Defined.

(** An accessor on an empty cache fails and leaves the handle as it was. *)
Lemma failed_accessor_keeps_handle_witness :
  self (after (HA := example_digest) st0 Keys) = self st0 ∧
  artifacts (after (HA := example_digest) st0 Keys) = artifacts st0 ∧
  disk (after (HA := example_digest) st0 Keys) = disk st0.
Proof.
  apply (failed_accessor_keeps_handle (HA := example_digest) Keys
           ArtifactError).
  vm_compute. reflexivity.
Defined.

Lemma accessor_without_artifact_witness :
  call (HA := example_digest) Dependencies st0 = (Raise ArtifactError, st0).
Proof.
  apply (accessor_without_artifact (HA := example_digest) Dependencies st0).
  - exists "proj/hello.bst/aaaa". split; [reflexivity | left; reflexivity].
  - reflexivity.
Defined.

Lemma cache_existing_rootdir_witness :
  cache (HA := example_digest) ["tmp"] None None example_result example_public
    st_taken
  = (Raise IOFailed, st_taken).
Proof.
  apply (cache_existing_rootdir (HA := example_digest)).
  exists ∅. vm_compute. reflexivity.
Defined.

Lemma cache_binds_both_keys_witness :
  ∃ root,
    _get_directory (HA := example_digest) (Some "aaaa") st_committed
      = (Ok root, st_committed) ∧
    _get_directory (HA := example_digest) (Some "bbbb") st_committed
      = (Ok root, st_committed) ∧
    _get_directory (HA := example_digest) None st_committed
      = (Ok root, st_committed).
Proof.
  exact (cache_binds_both_keys (HA := example_digest) ["tmp"] None
           (Some hello_vdir) example_result example_public st_before 0%N
           st_committed "aaaa" "bbbb" example_cache_run eq_refl eq_refl).
Defined.

Lemma cache_leaves_other_references_witness :
  resolve (refs (artifacts st_committed)) "proj/other.bst/aaaa"
    = resolve (refs (artifacts st_before)) "proj/other.bst/aaaa".
Proof.
  apply (cache_leaves_other_references (HA := example_digest) _ _ _ _ _ _ _ _
           "aaaa" "bbbb" "proj/other.bst/aaaa" example_cache_run eq_refl
           eq_refl).
  - vm_compute. discriminate.
  - vm_compute. discriminate.
Defined.

Lemma cache_then_buildtree_exists_witness :
  buildtree_exists (HA := example_digest) st_committed
    = (Ok (bool_decide (is_Some (None : option VDir))), st_committed).
Proof.
  exact (cache_then_buildtree_exists (HA := example_digest) _ _ _ _ _ _ _ _
           example_cache_run).
Defined.

Lemma cache_twice_witness :
  cache (HA := example_digest) ["tmp"] None None (false, Some "failed", None)
    example_public st_committed
  = (Raise IOFailed, st_committed).
Proof.
  exact (cache_twice (HA := example_digest) _ _ _ _ _ _ _ _ None None
           (false, Some "failed", None) example_public example_cache_run).
Defined.

Lemma cache_then_cached_witness :
  cached (HA := example_digest) st_plain = (Ok true, st_plain).
Proof.
  exact (cache_then_cached (HA := example_digest) _ _ _ _ _ _ _ _
           example_plain_run (or_introl eq_refl)).
Defined.

Lemma cache_then_cached_logs_witness :
  cached_logs (HA := example_digest) st_committed = (Ok true, st_committed).
Proof.
  exact (cache_then_cached_logs (HA := example_digest) _ _ _ _ _ _ _ _
           example_cache_run eq_refl).
Defined.

Lemma cache_logs_content_witness :
  ∃ log_vdir,
    _get_subdirectory (HA := example_digest) "logs" None st_committed
      = (Ok log_vdir, st_committed) ∧
    vd_index log_vdir
      = {[ "build.log" :=
             FileEntry (example_digest (BFile (Text "done"))) false ]}.
Proof.
  destruct (cache_logs_content (HA := example_digest) _ _ _ _ _ _ _ _
              example_cache_run)
    as (log_vdir & Hsub & c & Hdisk & Hindex & _).
  exists log_vdir. split; [exact Hsub |].
  assert (c = Text "done") as -> by (vm_compute in Hdisk; congruence).
  exact Hindex.
Defined.

Lemma cache_then_get_files_witness :
  get_files (HA := example_digest) st_committed
    = (Ok (mkVDir (example_digest (BDir hello_index)) hello_index),
       st_committed) ∧
  get_buildtree (HA := example_digest) st_committed
    = (Raise NotFound, st_committed).
Proof.
  exact (cache_then_get_files (HA := example_digest) _ _ _ _ _ _ _ _
           example_cache_run).
Defined.

Lemma cache_keeps_blobs_witness :
  get_blob (HA := example_digest) (cas (artifacts st_committed))
    (digest_of (HashAlgorithm := example_digest) hello_blob)
    = Ok hello_blob.
Proof.
  assert (get_blob (HA := example_digest) (cas (artifacts st_before))
            (digest_of (HashAlgorithm := example_digest) hello_blob)
          = Ok hello_blob) as Hbefore by (vm_compute; reflexivity).
  exact (cache_keeps_blobs (HA := example_digest) ["tmp"] None
           (Some hello_vdir) example_result example_public st_before 0%N
           st_committed _ hello_blob example_cache_run Hbefore).
Defined.

Lemma workspaced_dependencies_are_dependencies_witness :
  is_Some (dict_get [("base.bst", NStr "cccc"); ("lib.bst", NStr "dddd")]
             "lib.bst").
Proof.
  apply (workspaced_dependencies_are_dependencies (HA := example_digest)
           _ _ _ _ _ _ _ _ _ [NStr "lib.bst"] "lib.bst" example_cache_run
           eq_refl eq_refl).
  - vm_compute. reflexivity.
  - vm_compute. reflexivity.
  - apply list_elem_of_singleton. reflexivity.
Defined.

Lemma load_build_result_fields_witness :
  (load_build_result (HA := example_digest) st_bare).1 = Ok (true, None, None).
Proof.
  refine (proj1 (load_build_result_fields (HA := example_digest) st_bare
                   (mkVDir (example_digest (BDir bare_meta)) bare_meta)
                   (example_digest bare_result) false
                   [("success", NBool true)] _ _ _)
            true eq_refl eq_refl eq_refl).
  - vm_compute. reflexivity.
  - vm_compute. reflexivity.
  - vm_compute. reflexivity.
Defined.

Lemma cache_then_cached_files_witness :
  cached (HA := example_digest) st_committed
    = (contains_directory (HA := example_digest)
         (cas (artifacts st_committed))
         (digest_of (HashAlgorithm := example_digest)
            (BDir (vd_index hello_vdir)))
         (require_files st_before), st_committed).
Proof.
  exact (cache_then_cached_files (HA := example_digest) ["tmp"] None
           hello_vdir example_result example_public st_before 0%N
           st_committed example_cache_run eq_refl).
Defined.
